(** * create-ebook: Markdown directory to EPUB

    A shallow embedding of [create-ebook.py] (class [MarkdownToEPUB] and
    [main]) together with the properties of its assembly pipeline.

    Conventions of the embedding.
    - A Python [str] is a [string]; a character with code below 128 is the
      ASCII character, a byte from 128 on stands for a code point that is
      neither white space, nor a digit, nor cased (CJK text, symbols).
      Text with other code points (a superscript or Arabic-Indic digit,
      an accented letter, a ligature) is outside of the embedding: on it
      [str.isdigit], [int], [str.lower] and [str.title] are not the
      functions of [PyStr], and [int] may raise [ValueError]. Properties
      of whole file names that depend on these functions are stated for
      ASCII names.
    - A Python call that may raise returns a [result]; [try]/[except] is a
      match on it.
    - The [out] component of the converter state is what the process has
      printed so far; [print] appends a line to it. The standard output
      is taken to accept every text: [UnicodeEncodeError] is not part of
      the embedding.
    - The libraries the script calls (markdown, BeautifulSoup, ebooklib,
      the file system) are capabilities: section variables, or plain data
      (a parsed document, a directory tree) handed to the functions. *)

From Stdlib Require Import List String Ascii Bool Arith NArith Lia.
From Stdlib Require Import DecimalString DecimalNat Permutation Sorted Finite.
Import ListNotations.

Local Open Scope string_scope.
Local Open Scope list_scope.

(** ** Exceptions and results *)

Inductive exn : Type :=
| NameError (name : string)
| ValueError (msg : string)
| IndexError (msg : string)
| TypeError (msg : string)
| OSError (msg : string)
| OtherError (msg : string).

Inductive result (A : Type) : Type :=
| Ok (a : A)
| Raise (e : exn).

Arguments Ok {A} a.
Arguments Raise {A} e.

Definition bind {A B : Type} (r : result A) (k : A -> result B) : result B :=
  match r with
  | Ok a => k a
  | Raise e => Raise e
  end.

Notation "x <- r ;; k" := (bind r (fun x => k))
  (at level 61, r at next level, right associativity).

(** [str(e)] of an exception, as the handlers print it. *)
Definition exn_message (e : exn) : string :=
  match e with
  | NameError n => "name '" ++ n ++ "' is not defined"
  | ValueError m | IndexError m | TypeError m | OSError m | OtherError m => m
  end.

(** ** Python strings *)

Module PyStr.

Definition code (c : ascii) : nat := nat_of_ascii c.

(** [str.isspace] on one character: TAB, LF, VT, FF, CR, FS, GS, RS, US
    and the space. *)
Definition is_space (c : ascii) : bool :=
  let n := code c in
  (((9 <=? n) && (n <=? 13)) || ((28 <=? n) && (n <=? 32)))%nat.

Definition is_digit (c : ascii) : bool :=
  let n := code c in ((48 <=? n) && (n <=? 57))%nat.

Definition is_upper (c : ascii) : bool :=
  let n := code c in ((65 <=? n) && (n <=? 90))%nat.

Definition is_lower (c : ascii) : bool :=
  let n := code c in ((97 <=? n) && (n <=? 122))%nat.

Definition to_lower (c : ascii) : ascii :=
  if is_upper c then ascii_of_nat (code c + 32) else c.

Definition to_upper (c : ascii) : ascii :=
  if is_lower c then ascii_of_nat (code c - 32) else c.

Fixpoint map (f : ascii -> ascii) (s : string) : string :=
  match s with
  | EmptyString => EmptyString
  | String c s' => String (f c) (map f s')
  end.

Fixpoint forallb (p : ascii -> bool) (s : string) : bool :=
  match s with
  | EmptyString => true
  | String c s' => p c && forallb p s'
  end.

Definition is_empty (s : string) : bool :=
  match s with EmptyString => true | _ => false end.

(** [s.lower()] *)
Definition lower (s : string) : string := map to_lower s.

(** [s.isdigit()]: non-empty and digits only (ASCII digits; the other
    digits of Unicode are outside of the embedding). *)
Definition isdigit (s : string) : bool :=
  negb (is_empty s) && forallb is_digit s.

(** [s.lstrip()], [s.rstrip()], [s.strip()] *)
Fixpoint lstrip (s : string) : string :=
  match s with
  | EmptyString => EmptyString
  | String c s' => if is_space c then lstrip s' else s
  end.

Fixpoint rstrip (s : string) : string :=
  match s with
  | EmptyString => EmptyString
  | String c s' =>
      let r := rstrip s' in
      if is_empty r && is_space c then EmptyString else String c r
  end.

Definition strip (s : string) : string := rstrip (lstrip s).

(** [s.startswith(p)] *)
Definition startswith (p s : string) : bool := prefix p s.

(** [s[n:]] *)
Fixpoint drop (n : nat) (s : string) : string :=
  match n, s with
  | O, _ => s
  | S _, EmptyString => EmptyString
  | S n', String _ s' => drop n' s'
  end.

(** [s.split(sep)] for a one-character separator: never an empty list. *)
Fixpoint split_on (sep : ascii) (s : string) : list string :=
  match s with
  | EmptyString => [EmptyString]
  | String c s' =>
      if Ascii.eqb c sep then EmptyString :: split_on sep s'
      else match split_on sep s' with
           | [] => [String c EmptyString]
           | w :: ws => String c w :: ws
           end
  end.

(** [sep.join(xs)] *)
Definition join (sep : string) (xs : list string) : string :=
  String.concat sep xs.

(** [s.replace(a, b)] for single characters. *)
Definition replace (a b : ascii) (s : string) : string :=
  map (fun c => if Ascii.eqb c a then b else c) s.

(** [s.title()]: a cased character is upper-cased when the character
    before it is not cased, lower-cased otherwise (ASCII letters; the
    cased characters of Unicode beyond them are outside of the
    embedding). *)
Fixpoint title_from (prev_cased : bool) (s : string) : string :=
  match s with
  | EmptyString => EmptyString
  | String c s' =>
      if is_upper c || is_lower c
      then String (if prev_cased then to_lower c else to_upper c)
                  (title_from true s')
      else String c (title_from false s')
  end.

Definition title (s : string) : string := title_from false s.

(** [int(s)] on a run of ASCII digits (a file name is far shorter than
    the 4300 digits from which [int] refuses a string). On such a run
    [int] does not raise; the [ValueError] on a run that [str.isdigit]
    accepts and [int] does not (a superscript digit) is outside of the
    embedding. *)
Definition digit_value (c : ascii) : N := N.of_nat (code c - 48).

Fixpoint int_from (acc : N) (s : string) : N :=
  match s with
  | EmptyString => acc
  | String c s' => int_from (acc * 10 + digit_value c)%N s'
  end.

Definition int (s : string) : N := int_from 0%N s.

(** [str(n)] for a natural number. *)
Definition of_nat (n : nat) : string :=
  NilEmpty.string_of_uint (Nat.to_uint n).

(** [s.rfind(".")]: the last index of a dot. *)
Fixpoint rfind_dot_from (i : nat) (best : option nat) (s : string)
  : option nat :=
  match s with
  | EmptyString => best
  | String c s' =>
      rfind_dot_from (S i) (if Ascii.eqb c "." then Some i else best) s'
  end.

Definition rfind_dot (s : string) : option nat := rfind_dot_from 0 None s.

(** [s[:n]] *)
Fixpoint take (n : nat) (s : string) : string :=
  match n, s with
  | O, _ => EmptyString
  | S _, EmptyString => EmptyString
  | S n', String c s' => String c (take n' s')
  end.

End PyStr.

(** [xs.index(x)]: the first position of [x], [ValueError] when absent. *)
Fixpoint list_index_from (i : nat) (x : string) (xs : list string)
  : result nat :=
  match xs with
  | [] => Raise (ValueError ("'" ++ x ++ "' is not in list"))
  | y :: ys => if String.eqb y x then Ok i else list_index_from (S i) x ys
  end.

Definition list_index (x : string) (xs : list string) : result nat :=
  list_index_from 0 x xs.

(** [xs[-1]] of a non-empty list. *)
Definition last_item (xs : list string) : string := List.last xs "".

(** ** Paths ([pathlib.Path] on POSIX) *)

(** A path is its anchor ([""], ["/"] or ["//"]) and its components. *)
Record Path : Type := mkPath { anchor : string; parts : list string }.

Module PyPath.

Fixpoint count_slashes (s : string) : nat :=
  match s with
  | String "/" s' => S (count_slashes s')
  | _ => 0
  end.

Fixpoint strip_slashes (s : string) : string :=
  match s with
  | String "/" s' => strip_slashes s'
  | _ => s
  end.

(** [splitroot]: exactly two leading slashes are kept, any other number
    of them is one. *)
Definition splitroot (s : string) : string * string :=
  match count_slashes s with
  | 0 => ("", s)
  | 2 => ("//", strip_slashes s)
  | _ => ("/", strip_slashes s)
  end.

Definition keep_part (x : string) : bool :=
  negb (PyStr.is_empty x) && negb (String.eqb x ".").

(** [Path(s)] *)
Definition parse (s : string) : Path :=
  let (root, rel) := splitroot s in
  mkPath root (filter keep_part (PyStr.split_on "/" rel)).

(** [str(p)] *)
Definition str (p : Path) : string :=
  let body := PyStr.join "/" (parts p) in
  if PyStr.is_empty (anchor p)
  then (if PyStr.is_empty body then "." else body)
  else anchor p ++ body.

(** [p.name] *)
Definition name (p : Path) : string := List.last (parts p) "".

Definition has_suffix_at (nm : string) : option nat :=
  match PyStr.rfind_dot nm with
  | Some i =>
      if ((0 <? i) && (i <? String.length nm - 1))%nat then Some i else None
  | None => None
  end.

(** [p.suffix] and [p.stem] *)
Definition suffix (p : Path) : string :=
  match has_suffix_at (name p) with
  | Some i => PyStr.drop i (name p)
  | None => ""
  end.

Definition stem (p : Path) : string :=
  match has_suffix_at (name p) with
  | Some i => PyStr.take i (name p)
  | None => name p
  end.

(** [p / c1 / ... / cn] for plain component names. *)
Definition join (p : Path) (rel : list string) : Path :=
  mkPath (anchor p) (parts p ++ rel).

(** The list Python compares paths by. *)
Definition cparts (p : Path) : list string :=
  if PyStr.is_empty (anchor p) then parts p else anchor p :: parts p.

Fixpoint parts_ltb (a b : list string) : bool :=
  match a, b with
  | [], [] => false
  | [], _ :: _ => true
  | _ :: _, [] => false
  | x :: a', y :: b' =>
      if String.eqb x y then parts_ltb a' b' else String.ltb x y
  end.

(** [p < q] *)
Definition ltb (p q : Path) : bool := parts_ltb (cparts p) (cparts q).

End PyPath.

(** ** The file system *)

(** A file holds what reading it gives (its text or bytes, or the error of
    the read); a directory holds named entries. *)
#[warnings="-register-all"]
Inductive fsnode : Type :=
| File (contents : result string)
| Dir (entries : list (string * fsnode)).

Record filesystem : Type := mkFS { fs_root : fsnode; fs_cwd : list string }.

Module FS.

Fixpoint assoc (k : string) (es : list (string * fsnode)) : option fsnode :=
  match es with
  | [] => None
  | (k', v) :: es' => if String.eqb k' k then Some v else assoc k es'
  end.

Fixpoint get (n : fsnode) (comps : list string) : option fsnode :=
  match comps with
  | [] => Some n
  | c :: cs =>
      match n with
      | Dir es => match assoc c es with
                  | Some ch => get ch cs
                  | None => None
                  end
      | File _ => None
      end
  end.

(** Walk [comps] from the directory reached by [stack] (innermost name
    first); [..] goes to the parent, every step needs a directory. *)
Fixpoint nav (root : fsnode) (stack comps : list string)
  : option (list string) :=
  match comps with
  | [] => Some stack
  | c :: cs =>
      match get root (rev stack) with
      | Some (Dir _) =>
          nav root (if String.eqb c ".." then tl stack else c :: stack) cs
      | _ => None
      end
  end.

Definition lookup (fs : filesystem) (p : Path) : option fsnode :=
  let start := if PyStr.is_empty (anchor p) then rev (fs_cwd fs) else [] in
  match nav (fs_root fs) start (parts p) with
  | Some stack => get (fs_root fs) (rev stack)
  | None => None
  end.

(** [p.exists()], [os.path.exists(p)] *)
Definition exists_ (fs : filesystem) (p : Path) : bool :=
  match lookup fs p with Some _ => true | None => false end.

(** [open(p).read()] *)
Definition read (fs : filesystem) (p : Path) : result string :=
  match lookup fs p with
  | Some (File r) => r
  | Some (Dir _) => Raise (OSError "Is a directory")
  | None => Raise (OSError "No such file or directory")
  end.

(** Every entry below a directory, with its components from there. *)
Fixpoint walk (n : fsnode) : list (list string) :=
  match n with
  | File _ => []
  | Dir es =>
      flat_map (fun e => [fst e] :: List.map (cons (fst e)) (walk (snd e))) es
  end.

(** The names directly in a directory. *)
Definition children (n : fsnode) : list (list string) :=
  match n with
  | File _ => []
  | Dir es => List.map (fun e => [fst e]) es
  end.

(** [fnmatch] of one name against a pattern of literals, [*] and [?]. *)
Fixpoint fnmatch (pat : string) : string -> bool :=
  match pat with
  | EmptyString => PyStr.is_empty
  | String "*" pat' =>
      fix star (s : string) : bool :=
        fnmatch pat' s
        || match s with
           | EmptyString => false
           | String _ s' => star s'
           end
  | String "?" pat' =>
      fun s => match s with
               | EmptyString => false
               | String _ s' => fnmatch pat' s'
               end
  | String c pat' =>
      fun s => match s with
               | EmptyString => false
               | String d s' => Ascii.eqb c d && fnmatch pat' s'
               end
  end.

Definition matches (pat : string) (rel : list string) : bool :=
  fnmatch pat (List.last rel "").

(** [d.glob(pat)] and [d.glob("**/" + pat)] for a pattern [pat] of one
    name made of literal characters, [*] and [?], as are the patterns
    the script itself uses; character classes, [**] inside [pat],
    patterns of several components and the [ValueError] on the empty
    pattern are outside of the embedding. *)
Definition glob (fs : filesystem) (d : Path) (pat : string) : list Path :=
  match lookup fs d with
  | Some n => List.map (PyPath.join d) (filter (matches pat) (children n))
  | None => []
  end.

Definition rglob (fs : filesystem) (d : Path) (pat : string) : list Path :=
  match lookup fs d with
  | Some n => List.map (PyPath.join d) (filter (matches pat) (walk n))
  | None => []
  end.

End FS.

(** ** OrderingKey: [_natural_sort_key] and [sorted] *)

(** An element of a sort key: an [int] or a [str]. *)
Inductive token : Type :=
| TInt (n : N)
| TStr (s : string).

Module Key.

(** [re.split(r"(\d+)", text)]: the runs between the digit runs and the
    digit runs themselves, alternating, first and last a (possibly
    empty) run without digits. [cur] is the run being read, its
    characters in reverse. *)
Fixpoint split_runs (cur : list ascii) (in_digits : bool) (s : string)
  : list string :=
  let flush := string_of_list_ascii (rev cur) in
  match s with
  | EmptyString => if in_digits then [flush; ""] else [flush]
  | String c s' =>
      if Bool.eqb (PyStr.is_digit c) in_digits
      then split_runs (c :: cur) in_digits s'
      else flush :: split_runs [c] (negb in_digits) s'
  end.

Definition re_split_digits (text : string) : list string :=
  split_runs [] false text.

(** [int(c) if c.isdigit() else c.lower()], on the runs of an ASCII
    name. *)
Definition key_of_run (c : string) : token :=
  if PyStr.isdigit c then TInt (PyStr.int c) else TStr (PyStr.lower c).

(** [x == y] and [x < y] on key elements; [int < str] raises. *)
Definition tok_eqb (x y : token) : bool :=
  match x, y with
  | TInt a, TInt b => N.eqb a b
  | TStr a, TStr b => String.eqb a b
  | _, _ => false
  end.

Definition tok_lt (x y : token) : result bool :=
  match x, y with
  | TInt a, TInt b => Ok (N.ltb a b)
  | TStr a, TStr b => Ok (String.ltb a b)
  | TInt _, TStr _ =>
      Raise (TypeError "'<' not supported between instances of 'int' and 'str'")
  | TStr _, TInt _ =>
      Raise (TypeError "'<' not supported between instances of 'str' and 'int'")
  end.

(** [a < b] on lists: the first pair of unequal elements decides, a
    proper prefix is smaller. *)
Fixpoint lt (a b : list token) : result bool :=
  match a, b with
  | [], [] => Ok false
  | [], _ :: _ => Ok true
  | _ :: _, [] => Ok false
  | x :: a', y :: b' => if tok_eqb x y then lt a' b' else tok_lt x y
  end.

(** [sorted(xs, key=key)]: stable, by [<] on the keys only. An element
    goes in front of the first one whose key is not smaller; the sort
    raises when one of these comparisons does. *)
Fixpoint insert {A : Type} (key : A -> list token) (x : A) (l : list A)
  : result (list A) :=
  match l with
  | [] => Ok [x]
  | y :: l' =>
      b <- lt (key y) (key x) ;;
      if b then (r <- insert key x l' ;; Ok (y :: r)) else Ok (x :: l)
  end.

Fixpoint sorted {A : Type} (key : A -> list token) (l : list A)
  : result (list A) :=
  match l with
  | [] => Ok []
  | x :: l' => r <- sorted key l' ;; insert key x r
  end.

End Key.

(** [sorted(xs)] for a [<] that cannot raise: stable, an element goes in
    front of the first one that is not smaller. *)
Fixpoint insert_by {A : Type} (ltb : A -> A -> bool) (x : A) (l : list A)
  : list A :=
  match l with
  | [] => [x]
  | y :: l' => if ltb y x then y :: insert_by ltb x l' else x :: l
  end.

Definition sort_by {A : Type} (ltb : A -> A -> bool) (l : list A) : list A :=
  fold_right (insert_by ltb) [] l.

(** [MarkdownToEPUB._natural_sort_key] *)
Definition _natural_sort_key (text : string) : list token :=
  List.map Key.key_of_run (Key.re_split_digits text).

(** ** Names of the module *)

(** The names bound at module level: the imports, the class and [main]
    ([BOOK_META] once [main] has run). Neither [yaml] nor [ext] is among
    them, and neither is a builtin. *)
Definition module_globals : list string :=
  ["os"; "re"; "uuid"; "Path"; "List"; "Optional"; "markdown"; "epub";
   "BeautifulSoup"; "json"; "sys"; "MarkdownToEPUB"; "main"; "BOOK_META"].

(** Reading a name that is not a local: the module's object under that
    name (here only its name is kept), or [NameError]. *)
Definition load_global (name : string) : result string :=
  if existsb (String.eqb name) module_globals
  then Ok ("<" ++ name ++ ">")%string
  else Raise (NameError name).

(** ** TitleResolver: [_extract_title] *)

Definition nl : string := String "010" EmptyString.

Module Title.

(** The [for i, line in enumerate(lines[1:], 1)] loop: the index of the
    first later line that is [---] once stripped. *)
Fixpoint find_yaml_end (i : nat) (rest : list string) : option nat :=
  match rest with
  | [] => None
  | line :: rest' =>
      if String.eqb (PyStr.strip line) "---" then Some i
      else find_yaml_end (S i) rest'
  end.

Definition all_equals (s : string) : bool :=
  PyStr.forallb (fun c => Ascii.eqb c "=") s.

(** The [for line in lines] loop; [rest] is what is left to visit. *)
Fixpoint scan_headings (lines rest : list string) : result (option string) :=
  match rest with
  | [] => Ok None
  | raw :: rest' =>
      let line := PyStr.strip raw in
      if PyStr.startswith "# " line
      then Ok (Some (PyStr.strip (PyStr.drop 2 line)))
      else if PyStr.is_empty line then scan_headings lines rest'
      else
        i <- list_index line lines ;;
        if (i + 1 <? List.length lines)%nat
        then
          let next_line := PyStr.strip (nth (i + 1) lines "") in
          if negb (PyStr.is_empty next_line) && all_equals next_line
          then Ok (Some line)
          else scan_headings lines rest'
        else scan_headings lines rest'
  end.

(** [md_path.stem.replace("_", " ").replace("-", " ").title()] *)
Definition from_filename (md_path : Path) : string :=
  PyStr.title (PyStr.replace "-" " " (PyStr.replace "_" " " (PyPath.stem md_path))).

End Title.

Section TitleResolver.

(** What [yaml.safe_load] followed by the [dict] test and
    [str(metadata["title"])] would give on a block, were [yaml] bound:
    an error, no title, or the title. *)
Variable yaml_title : string -> result (option string).

(** The [try] block of the front-matter branch. *)
Definition front_matter_title (lines : list string) (yaml_end : nat)
  : result (option string) :=
  let yaml_content := PyStr.join nl (firstn (yaml_end - 1) (skipn 1 lines)) in
  _ <- load_global "yaml" ;;
  yaml_title yaml_content.

Definition _extract_title (md_content : string) (md_path : Path)
  : result string :=
  let lines := PyStr.split_on "010" md_content in
  let front :=
    if String.eqb (PyStr.strip (nth 0 lines "")) "---"
    then match Title.find_yaml_end 1 (skipn 1 lines) with
         | Some yaml_end =>
             match front_matter_title lines yaml_end with
             | Ok (Some t) => Some t
             | Ok None => None
             | Raise _ => None            (* except: pass *)
             end
         | None => None
         end
    else None in
  match front with
  | Some t => Ok t
  | None =>
      h <- Title.scan_headings lines lines ;;
      match h with
      | Some t => Ok t
      | None => Ok (Title.from_filename md_path)
      end
  end.

End TitleResolver.

(** ** ContentNormalizer: the parsed document *)

(** What [BeautifulSoup(html, "html.parser")] holds: elements with a name,
    attributes and children, and strings. An object of the tree is
    identified by its position: the indices leading to it from the top. *)
#[warnings="-register-all"]
Inductive node : Type :=
| Tag (name : string) (attrs : list (string * string)) (children : list node)
| Str (text : string).

(** The document written out in reading order. *)
Inductive event : Type :=
| Start (name : string) (attrs : list (string * string))
| Finish (name : string)
| Data (text : string).

Module Soup.

Definition is_h1 (n : node) : bool :=
  match n with
  | Tag nm _ _ => String.eqb nm "h1"
  | Str _ => false
  end.

(** [soup.find("h1")]: the first [h1] element in document order, an
    element before the elements inside it. [find_in] searches the
    children of one node, [find_from i l] the nodes [l], which sit at
    positions [i], [i+1], ... of their parent. *)
Fixpoint find_in (n : node) : option (list nat) :=
  match n with
  | Str _ => None
  | Tag _ _ ch =>
      (fix go (i : nat) (l : list node) : option (list nat) :=
         match l with
         | [] => None
         | x :: l' =>
             if is_h1 x then Some [i]
             else match find_in x with
                  | Some p => Some (i :: p)
                  | None => go (S i) l'
                  end
         end) 0 ch
  end.

Fixpoint find_from (i : nat) (l : list node) : option (list nat) :=
  match l with
  | [] => None
  | x :: l' =>
      if is_h1 x then Some [i]
      else match find_in x with
           | Some p => Some (i :: p)
           | None => find_from (S i) l'
           end
  end.

Definition find_h1 (soup : list node) : option (list nat) := find_from 0 soup.

(** The object at a position. *)
Fixpoint get (p : list nat) (l : list node) : option node :=
  match p with
  | [] => None
  | i :: p' =>
      match nth_error l i with
      | None => None
      | Some x =>
          match p' with
          | [] => Some x
          | _ :: _ => match x with
                      | Tag _ _ ch => get p' ch
                      | Str _ => None
                      end
          end
      end
  end.

Fixpoint remove_nth (i : nat) (l : list node) : list node :=
  match l, i with
  | [], _ => []
  | _ :: l', 0 => l'
  | x :: l', S i' => x :: remove_nth i' l'
  end.

Fixpoint update_nth (i : nat) (f : node -> node) (l : list node) : list node :=
  match l, i with
  | [], _ => []
  | x :: l', 0 => f x :: l'
  | x :: l', S i' => x :: update_nth i' f l'
  end.

(** [tag.decompose()] for the element at position [p]: it leaves the
    tree, with all that is inside it. *)
Fixpoint decompose (p : list nat) (l : list node) : list node :=
  match p with
  | [] => l
  | i :: p' =>
      match p' with
      | [] => remove_nth i l
      | _ :: _ =>
          update_nth i (fun x => match x with
                                 | Tag nm at_ ch => Tag nm at_ (decompose p' ch)
                                 | Str _ => x
                                 end) l
      end
  end.

Fixpoint events (n : node) : list event :=
  match n with
  | Str s => [Data s]
  | Tag nm at_ ch => Start nm at_ :: flat_map events ch ++ [Finish nm]
  end.

Definition events_of (l : list node) : list event := flat_map events l.

Definition is_h1_start (e : event) : bool :=
  match e with
  | Start nm _ => String.eqb nm "h1"
  | _ => false
  end.

(** The number of [h1] elements of a document. *)
Definition count_h1 (l : list node) : nat :=
  List.length (filter is_h1_start (events_of l)).

(** The body of [_create_xhtml_content] between parsing and writing
    out: [first_h1 = soup.find("h1")], then
    [if first_h1: first_h1.decompose()]. An element is always true. *)
Definition remove_first_h1 (soup : list node) : list node :=
  match find_h1 soup with
  | Some first_h1 => decompose first_h1 soup
  | None => soup
  end.

End Soup.

Section ContentNormalizer.

(** [BeautifulSoup(html, "html.parser")] and [str(soup)]. *)
Variable html_parser : string -> result (list node).
Variable soup_str : list node -> string.

Definition _create_xhtml_content (html_content title : string)
  : result string :=
  soup <- html_parser html_content ;;
  let cleaned_content := soup_str (Soup.remove_first_h1 soup) in
  Ok cleaned_content.

End ContentNormalizer.

(** ** The document model *)

(** An [epub.EpubHtml] chapter. [h_uid] is the [id] attribute: the script
    passes no [uid], so it is whatever [book.add_item] decides. [h_links]
    are the style sheets linked by [chapter.add_item]. *)
Record EpubHtml : Type := mkEpubHtml {
  h_uid : string;
  h_title : string;
  h_file_name : string;
  h_lang : string;
  h_content : string;
  h_links : list string
}.

(** What [book.add_item] was given. A chapter object is shared between
    [book.items], [self.chapters] and [self.spine]: [self.chapters] is the
    store, the other two hold the index of the object in it. *)
Inductive item : Type :=
| ItemChapter (ref : nat)
| ItemImage (uid file_name media_type content : string)
| ItemStyle (uid file_name media_type content : string)
| ItemNcx
| ItemNav
| ItemCover (file_name content : string)
| ItemCoverPage (image_name : string).

Inductive spine_entry : Type :=
| SpineNav
| SpineChapter (ref : nat).

(** [epub.Link(href, title, uid)] *)
Record Link : Type := mkLink {
  link_href : string;
  link_title : string;
  link_uid : string
}.

(** One call of the Markdown parser object. *)
Inductive md_event : Type :=
| MdConvert (text : string)
| MdReset.

(** The converter object with its book. [book_spine_set] tells whether
    [self.book.spine = self.spine] has run: from then on the book's spine
    is the very list [self.spine]. *)
Record converter : Type := mkConverter {
  book_identifier : string;
  book_title : string;
  book_language : string;
  book_author : string;
  book_items : list item;
  book_toc : list (Link * list Link);
  book_spine_set : bool;
  chapters : list EpubHtml;
  spine : list spine_entry;
  md : list md_event;
  out : list string
}.

Definition book_spine (st : converter) : list spine_entry :=
  if book_spine_set st then spine st else [].

Definition print (line : string) (st : converter) : converter :=
  mkConverter (book_identifier st) (book_title st) (book_language st)
    (book_author st) (book_items st) (book_toc st) (book_spine_set st)
    (chapters st) (spine st) (md st) (out st ++ [line]).

Definition set_md (m : list md_event) (st : converter) : converter :=
  mkConverter (book_identifier st) (book_title st) (book_language st)
    (book_author st) (book_items st) (book_toc st) (book_spine_set st)
    (chapters st) (spine st) m (out st).

(** [self.book.add_item(x)] *)
Definition book_add_item (x : item) (st : converter) : converter :=
  mkConverter (book_identifier st) (book_title st) (book_language st)
    (book_author st) (book_items st ++ [x]) (book_toc st) (book_spine_set st)
    (chapters st) (spine st) (md st) (out st).

Definition set_chapters (cs : list EpubHtml) (st : converter) : converter :=
  mkConverter (book_identifier st) (book_title st) (book_language st)
    (book_author st) (book_items st) (book_toc st) (book_spine_set st)
    cs (spine st) (md st) (out st).

Definition set_spine (sp : list spine_entry) (st : converter) : converter :=
  mkConverter (book_identifier st) (book_title st) (book_language st)
    (book_author st) (book_items st) (book_toc st) (book_spine_set st)
    (chapters st) sp (md st) (out st).

Definition set_book_toc (t : list (Link * list Link)) (st : converter)
  : converter :=
  mkConverter (book_identifier st) (book_title st) (book_language st)
    (book_author st) (book_items st) t (book_spine_set st)
    (chapters st) (spine st) (md st) (out st).

(** [self.book.spine = self.spine] *)
Definition set_book_spine (st : converter) : converter :=
  mkConverter (book_identifier st) (book_title st) (book_language st)
    (book_author st) (book_items st) (book_toc st) true
    (chapters st) (spine st) (md st) (out st).

(** The global [BOOK_META] that [main] fills. *)
Record BookMeta : Type := mkBookMeta {
  meta_title : string;
  meta_output_file : string;
  meta_author : string;
  meta_cover_path : string;
  meta_language : string;
  meta_markdown_dir : string
}.

(** [MarkdownToEPUB.__init__]; [printed] is what the process has printed
    before. *)
Definition init (book_uuid title author language : string)
    (printed : list string) : converter :=
  print ("Initializing EPUB Converter: " ++ title)
    (mkConverter book_uuid title language author [] [] false [] [SpineNav] []
                 printed).

(** [f"chapter_{len(self.chapters) + 1}"] *)
Definition chapter_id (st : converter) : string :=
  "chapter_" ++ PyStr.of_nat (List.length (chapters st) + 1).

(** [MarkdownToEPUB.image_media_type] *)
Definition image_media_type (image_path : Path) (st : converter)
  : converter * string :=
  let ext := PyStr.lower (PyPath.suffix image_path) in
  if String.eqb ext ".jpg" || String.eqb ext ".jpeg" then (st, "image/jpeg")
  else if String.eqb ext ".png" then (st, "image/png")
  else if String.eqb ext ".gif" then (st, "image/gif")
  else (print ("Unsupported image format: " ++ ext) st, "image/png").

Definition dq : string := String (ascii_of_nat 34) EmptyString.

(** [MarkdownToEPUB._get_default_css] *)
Definition _get_default_css : string :=
  String.concat "" [
"
/* EPUB 默认样式 */
body {
    font-family: "; dq; "Times New Roman"; dq; ", serif;
    line-height: 1.6;
    margin: 1em;
    text-align: justify;
}

h1, h2, h3, h4, h5, h6 {
    font-family: "; dq; "Arial"; dq; ", sans-serif;
    color: #333;
    margin-top: 1.5em;
    margin-bottom: 0.5em;
}

h1 { font-size: 2em; border-bottom: 2px solid #333; padding-bottom: 0.3em; }
h2 { font-size: 1.5em; color: #666; }
h3 { font-size: 1.3em; }

p {
    margin: 1em 0;
    text-indent: 2em;
}

blockquote {
    margin: 1em 2em;
    padding: 0.5em 1em;
    border-left: 4px solid #ddd;
    background-color: #f9f9f9;
    font-style: italic;
}

code {
    font-family: "; dq; "Courier New"; dq; ", monospace;
    background-color: #f4f4f4;
    padding: 0.2em 0.4em;
    border-radius: 3px;
    font-size: 0.9em;
}

pre {
    background-color: #f8f8f8;
    border: 1px solid #ddd;
    border-radius: 5px;
    padding: 1em;
    overflow-x: auto;
    margin: 1em 0;
}

pre code {
    background-color: transparent;
    padding: 0;
}

table {
    border-collapse: collapse;
    width: 100%;
    margin: 1em 0;
}

th, td {
    border: 1px solid #ddd;
    padding: 0.5em;
    text-align: left;
}

th {
    background-color: #f2f2f2;
    font-weight: bold;
}

ul, ol {
    margin: 1em 0;
    padding-left: 2em;
}

li {
    margin: 0.5em 0;
}

a {
    color: #0066cc;
    text-decoration: none;
}

a:hover {
    text-decoration: underline;
}

img {
    max-width: 100%;
    height: auto;
    display: block;
    margin: 1em auto;
}

/* 代码高亮样式 */
.highlight {
    background-color: #f8f8f8;
    border: 1px solid #ddd;
    border-radius: 5px;
    padding: 1em;
    margin: 1em 0;
}
"].

(** [MarkdownToEPUB.add_custom_css]; nothing in its [try] block raises. *)
Definition add_custom_css (css_content : option string) (st : converter)
  : converter * bool :=
  let css_content :=
    match css_content with
    | None => _get_default_css
    | Some c => c
    end in
  let css_item :=
    ItemStyle "style_default" "style/default.css" "text/css" css_content in
  let st := book_add_item css_item st in
  let link (c : EpubHtml) :=
    mkEpubHtml (h_uid c) (h_title c) (h_file_name c) (h_lang c) (h_content c)
               (h_links c ++ ["style/default.css"]) in
  let st := set_chapters (List.map link (chapters st)) st in
  (print "✓ CSS styles have been added." st, true).

Section Pipeline.

(** The capabilities of a run: the file system, the (unbound) YAML
    parser, the Markdown parser object as a function of the calls made
    on it so far, BeautifulSoup, the identifier [book.add_item] gives an
    item that has none, and the package writer with the directory
    creation before it. *)
Variable fs : filesystem.
Variable yaml_title : string -> result (option string).
Variable md_convert : list md_event -> string -> result string.
Variable html_parser : string -> result (list node).
Variable soup_str : list node -> string.
Variable auto_id : list item -> string.
Variable mkdir_parents : Path -> result unit.
Variable write_epub : string -> converter -> result unit.
(** The order in which a [set] of paths is iterated. *)
Variable set_order : list Path -> list Path.

(** The [try] block of [add_markdown_file] up to the chapter object:
    the parser state after it, and the chapter or the exception. *)
Definition build_chapter (md_path : Path) (chapter_title : option string)
    (st : converter) : list md_event * result EpubHtml :=
  match FS.read fs md_path with
  | Raise e => (md st, Raise e)
  | Ok md_content =>
      let md' := md st ++ [MdConvert md_content] in
      (md',
       html_content <- md_convert (md st) md_content ;;
       chapter_title <-
         match chapter_title with
         | Some t => if PyStr.is_empty t
                     then _extract_title yaml_title md_content md_path
                     else Ok t
         | None => _extract_title yaml_title md_content md_path
         end ;;
       let chapter_id := chapter_id st in
       content <- _create_xhtml_content html_parser soup_str
                    html_content chapter_title ;;
       Ok (mkEpubHtml (auto_id (book_items st)) chapter_title
                      (chapter_id ++ ".xhtml") (book_language st)
                      content []))
  end.

(** [MarkdownToEPUB.add_markdown_file] *)
Definition add_markdown_file (md_path : Path) (chapter_title : option string)
    (st : converter) : converter * bool :=
  match build_chapter md_path chapter_title st with
  | (md', Ok chapter) =>
      let ref := List.length (chapters st) in
      let st := set_md md' st in
      let st := book_add_item (ItemChapter ref) st in
      let st := set_chapters (chapters st ++ [chapter]) st in
      let st := set_spine (spine st ++ [SpineChapter ref]) st in
      let st := print ("✓ Chapter added: " ++ h_title chapter ++ " ("
                       ++ PyPath.name md_path ++ ")") st in
      let st := set_md (md st ++ [MdReset]) st in
      (st, true)
  | (md', Raise e) =>
      (print ("✗ Failed to add file " ++ PyPath.str md_path ++ ": "
              ++ exn_message e) (set_md md' st), false)
  end.

(** [MarkdownToEPUB.add_image_file] *)
Definition add_image_file (img_path : Path) (parent_path : string)
    (st : converter) : converter * bool :=
  match FS.read fs img_path with
  | Ok image_content =>
      let prefix_len := String.length parent_path + 1 in
      let (st, media_type) := image_media_type img_path st in
      let img := ItemImage (PyPath.name img_path)
                           (PyStr.drop prefix_len (PyPath.str img_path))
                           media_type image_content in
      (book_add_item img st, true)
  | Raise e =>
      (print ("✗ Failed to add file " ++ PyPath.str img_path ++ ": "
              ++ exn_message e) st, false)
  end.

Definition image_patterns : list string :=
  ["*.jpg"; "*.jpeg"; "*.png"; "*.gif"; "*.bmp"; "*.tiff"; "*.webp"; "*.svg";
   "*.JPG"; "*.JPEG"; "*.PNG"; "*.GIF"; "*.BMP"; "*.TIFF"; "*.WEBP"; "*.SVG"].

(** [sorted] on paths: [<] on paths never raises. *)
Definition sort_paths (l : list Path) : list Path := sort_by PyPath.ltb l.

(** The loop of [find_images_glob]: every pattern is [**/] and one of
    [image_patterns]. *)
Definition image_files (directory : Path) : list Path :=
  flat_map (FS.rglob fs directory) image_patterns.

(** [MarkdownToEPUB.find_images_glob] *)
Definition find_images_glob (directory : Path) : list Path :=
  sort_paths (set_order (image_files directory)).

Definition add_markdown_files (md_files : list Path) (st : converter)
  : converter * nat :=
  fold_left (fun acc md_file =>
               let (st, success_count) := acc : converter * nat in
               let (st, ok) := add_markdown_file md_file None st in
               (st, if ok then success_count + 1 else success_count))
            md_files (st, 0).

Definition add_image_files (img_files : list Path) (parent_path : string)
    (st : converter) : converter :=
  fold_left (fun st img_file => fst (add_image_file img_file parent_path st))
            img_files st.

(** [MarkdownToEPUB.add_markdown_directory]; an exception of the sort is
    not handled there. *)
Definition add_markdown_directory (directory_path pattern : string)
    (st : converter) : result (converter * bool) :=
  let directory := PyPath.parse directory_path in
  if negb (FS.exists_ fs directory)
  then Ok (print ("Directory does not exist: " ++ directory_path) st, false)
  else
    let md_files := FS.glob fs directory pattern
                    ++ FS.glob fs directory "*.markdown" in
    md_files <- Key.sorted (fun x => _natural_sort_key (PyPath.name x))
                           (set_order md_files) ;;
    match md_files with
    | [] => Ok (print ("No Markdown files found in " ++ directory_path ++ ".") st,
                false)
    | _ :: _ =>
        let n := PyStr.of_nat (List.length md_files) in
        let st := print ("Found " ++ n ++ " Markdown files") st in
        let (st, success_count) := add_markdown_files md_files st in
        let st := print ("Found " ++ n ++ " Markdown files.") st in
        let img_files := find_images_glob directory in
        let st := print ("Found " ++ PyStr.of_nat (List.length img_files)
                         ++ " Image files") st in
        let st := add_image_files img_files directory_path st in
        Ok (st, (0 <? success_count)%nat)
    end.

(** [MarkdownToEPUB.add_cover_image]. [book.set_cover] adds the cover
    image and its page. *)
Definition add_cover_image (image_path : string) (st : converter)
  : converter * bool :=
  let image_path := PyPath.parse image_path in
  if negb (FS.exists_ fs image_path)
  then (print ("Cover image not found: " ++ PyPath.str image_path) st, false)
  else
    let failed (st : converter) (e : exn) :=
      (print ("✗ Failed to add cover: " ++ exn_message e) st, false) in
    match FS.read fs image_path with
    | Raise e => failed st e
    | Ok cover_content =>
        let (st, media_type) := image_media_type image_path st in
        match load_global "ext" with
        | Raise e => failed st e
        | Ok ext =>
            let file_name := ("cover" ++ ext)%string in
            let st := book_add_item (ItemCover file_name cover_content) st in
            let st := book_add_item (ItemCoverPage file_name) st in
            (print ("✓ Cover added: " ++ PyPath.name image_path) st, true)
        end
    end.

(** The list comprehension of [generate_epub]. *)
Definition toc_of (cs : list EpubHtml) : list (Link * list Link) :=
  List.map (fun chapter =>
              (mkLink (h_file_name chapter) (h_title chapter) (h_uid chapter),
               @nil Link)) cs.

(** [p.parent] *)
Definition parent (p : Path) : Path :=
  mkPath (anchor p) (removelast (parts p)).

(** [MarkdownToEPUB.generate_epub] *)
Definition generate_epub (output_path : string) (st : converter)
  : converter * bool :=
  match chapters st with
  | [] => (print "Unable to generate EPUB without chapter content." st, false)
  | _ :: _ =>
      let st := fst (add_custom_css None st) in
      let st := set_book_toc (toc_of (chapters st)) st in
      let st := book_add_item ItemNcx st in
      let st := book_add_item ItemNav st in
      let st := set_book_spine st in
      let output_path := PyPath.parse output_path in
      let written :=
        _ <- mkdir_parents (parent output_path) ;;
        write_epub (PyPath.str output_path) st in
      match written with
      | Ok _ =>
          let st := print ("🎉 EPUB file has been successfully generated: "
                           ++ PyPath.str output_path) st in
          let st := print ("📚 Contains "
                           ++ PyStr.of_nat (List.length (chapters st))
                           ++ " chapters") st in
          let st := print ("📖 Title: " ++ book_title st) st in
          let st := print ("✍️ Author: " ++ book_author st) st in
          (st, true)
      | Raise e =>
          (print ("✗ Failed to generate EPUB: " ++ exn_message e) st, false)
      end
  end.

(** The first lines of [main]: the source directory from [sys.argv]. *)
Definition main_markdown_dir (argv : list string) : result string :=
  if (List.length argv <? 1)%nat then Ok "./"
  else match nth_error argv 1 with
       | Some a => Ok a
       | None => Raise (IndexError "list index out of range")
       end.

(** The values [main] derives from the directory. *)
Definition main_meta (markdown_dir : string) : BookMeta :=
  let markdown_dir := PyPath.str (PyPath.parse markdown_dir) in
  let title := last_item (PyStr.split_on "/" markdown_dir) in
  let output_file := ("./output/" ++ title ++ ".epub")%string in
  let author := "Unknown" in
  let cover_path := (markdown_dir ++ "/cover.png")%string in
  let language := "en" in
  mkBookMeta title output_file author cover_path language markdown_dir.

(** [main]: the run as a whole, [Raise] when an exception leaves it.
    [book_uuid] is the [uuid.uuid4()] of the run. Of the exceptions
    that can leave [main] the embedding has the [IndexError] of
    [sys.argv[1]]; those of names outside ASCII and of a standard output
    that refuses a text are outside of it. *)
Definition main (book_uuid : string) (argv : list string)
  : result (BookMeta * converter) :=
  dir <- main_markdown_dir argv ;;
  let line1 := ("The resource directory is located at '" ++ dir ++ "'.")%string in
  let meta := main_meta dir in
  let cover_image :=
    if FS.exists_ fs (PyPath.parse (meta_cover_path meta))
    then Some (meta_cover_path meta) else None in
  let line2 := "🚀 Starting the conversion of Markdown files to EPUB..." in
  let st := init book_uuid (meta_title meta) (meta_author meta)
                 (meta_language meta) [line1; line2] in
  r <- add_markdown_directory (meta_markdown_dir meta) "*.md" st ;;
  let (st, ok) := r : converter * bool in
  if negb ok
  then Ok (meta,
           print "❌ No processable Markdown files found, conversion terminated." st)
  else
    let st :=
      match cover_image with
      | Some c => fst (add_cover_image c st)
      | None => st
      end in
    let (st, ok) := generate_epub (meta_output_file meta) st in
    Ok (meta, print (if ok then "✅ Conversion successful!"
                     else "❌ Conversion failed!") st).

(** The states a converter object goes through: it is built by
    [__init__] and changed by its methods (and by the [print]s of the
    code around the calls). *)
Inductive reachable : converter -> Prop :=
| reach_init : forall book_uuid title author language printed,
    reachable (init book_uuid title author language printed)
| reach_print : forall line st,
    reachable st -> reachable (print line st)
| reach_add_markdown_file : forall md_path chapter_title st,
    reachable st ->
    reachable (fst (add_markdown_file md_path chapter_title st))
| reach_add_image_file : forall img_path parent_path st,
    reachable st ->
    reachable (fst (add_image_file img_path parent_path st))
| reach_add_custom_css : forall css_content st,
    reachable st -> reachable (fst (add_custom_css css_content st))
| reach_add_cover_image : forall image_path st,
    reachable st -> reachable (fst (add_cover_image image_path st))
| reach_generate_epub : forall output_path st,
    reachable st -> reachable (fst (generate_epub output_path st)).

End Pipeline.

(** A set of paths listed in the order of first occurrence: one of the
    orders [set_order] may stand for. *)
Definition Path_eq_dec (p q : Path) : {p = q} + {p <> q}.
Proof. decide equality; [apply (list_eq_dec string_dec) | apply string_dec]. Defined.

Definition first_occurrence_order (l : list Path) : list Path :=
  rev (nodup Path_eq_dec (rev l)).

(** A directory [book] with two chapters, a cover and images, used to run
    the definitions. *)
Definition sample_fs : filesystem :=
  mkFS (Dir [("book",
              Dir [("ch10.md", File (Ok ("# Ten" ++ nl ++ "text")%string));
                   ("ch2.md", File (Ok ("Two" ++ nl ++ "===" ++ nl ++ "text")%string));
                   ("broken.md", File (Raise (OSError "Permission denied")));
                   ("cover.png", File (Ok "PNG"));
                   ("a.PNG", File (Ok "A"));
                   ("c.Png", File (Ok "C"));
                   ("sub", Dir [("b.jpg", File (Ok "B"))])])])
       [].

(** Stand-ins for the libraries, to run the pipeline on [sample_fs]: a
    converter that hands the text on, a parser that makes a heading and a
    paragraph of it, a writer of the document in reading order. *)
Definition sample_convert (history : list md_event) (text : string)
  : result string :=
  Ok text.

Definition sample_parser (html : string) : result (list node) :=
  Ok [Tag "h1" [] [Str "T"]; Tag "p" [] [Str html]].

Definition sample_render (e : event) : string :=
  match e with
  | Start nm _ => "<" ++ nm ++ ">"
  | Finish nm => "</" ++ nm ++ ">"
  | Data s => s
  end.

Definition sample_soup_str (soup : list node) : string :=
  String.concat "" (List.map sample_render (Soup.events_of soup)).

Definition sample_auto_id (items : list item) : string :=
  "chapter_" ++ PyStr.of_nat (List.length items).

Definition sample_yaml (block : string) : result (option string) := Ok None.

Definition sample_files : list Path :=
  [PyPath.parse "book/ch2.md"; PyPath.parse "book/broken.md";
   PyPath.parse "book/ch10.md"].

Definition sample_init : converter := init "id" "book" "Unknown" "en" [].

Definition sample_mkdir (p : Path) : result unit := Ok tt.

Definition sample_write (path : string) (book : converter) : result unit :=
  Ok tt.

(** ** Vocabulary of the properties *)

(** The file name of the k-th chapter. *)
Definition chapter_file_name (k : nat) : string :=
  "chapter_" ++ PyStr.of_nat k ++ ".xhtml".

(** The chapters carry the file names [chapter_1.xhtml],
    [chapter_2.xhtml], ... in this order. *)
Definition numbered (cs : list EpubHtml) : Prop :=
  List.map h_file_name cs = List.map chapter_file_name (seq 1 (List.length cs)).

(** The spine is the navigation entry followed by the chapter objects in
    the order of the store. *)
Definition spine_follows_chapters (st : converter) : Prop :=
  spine st = SpineNav :: List.map SpineChapter (seq 0 (List.length (chapters st))).

(** The element at position [q] of [soup] is an [h1]; the document in
    reading order is [before], that element, [after]; no [h1] starts in
    [before]; and once the element is decomposed the document is [before]
    followed by [after]. *)
Definition cut_at (q : list nat) (soup : list node) : Prop :=
  exists first_h1 before after,
    Soup.get q soup = Some first_h1
    /\ Soup.is_h1 first_h1 = true
    /\ Soup.events_of soup = before ++ Soup.events first_h1 ++ after
    /\ filter Soup.is_h1_start before = []
    /\ Soup.events_of (Soup.decompose q soup) = before ++ after.

(** A heading that holds a second heading, followed by a paragraph: the
    document of
    [<h1>Title <div><h1>Inner</h1></div></h1><p>Body</p>]. *)
Definition nested_h1_soup : list node :=
  [Tag "h1" [] [Str "Title "; Tag "div" [] [Tag "h1" [] [Str "Inner"]]];
   Tag "p" [] [Str "Body"]].

(** The document of [<h1>Title</h1><p>Body</p><h1>Again</h1>]. *)
Definition two_h1_soup : list node :=
  [Tag "h1" [] [Str "Title"]; Tag "p" [] [Str "Body"];
   Tag "h1" [] [Str "Again"]].

(** The extensions the patterns of [find_images_glob] spell out. *)
Definition image_extensions : list string :=
  [".jpg"; ".jpeg"; ".png"; ".gif"; ".bmp"; ".tiff"; ".webp"; ".svg";
   ".JPG"; ".JPEG"; ".PNG"; ".GIF"; ".BMP"; ".TIFF"; ".WEBP"; ".SVG"].

(** [set_order] lists a set: every element once, in some order. *)
Definition is_set_listing (set_order : list Path -> list Path) : Prop :=
  forall l, NoDup (set_order l) /\ forall x, In x (set_order l) <-> In x l.

(** A string without the separator. *)
Definition no_sep (sep : ascii) (s : string) : bool :=
  PyStr.forallb (fun c => negb (Ascii.eqb c sep)) s.

(** A pattern without wild cards. *)
Definition literal (pat : string) : bool :=
  PyStr.forallb (fun c => negb (Ascii.eqb c "*") && negb (Ascii.eqb c "?")) pat.

(** *** Orders *)

(** The lexicographic comparison of lists by a comparison of elements. *)
Fixpoint lex {A : Type} (cmp : A -> A -> comparison) (a b : list A)
  : comparison :=
  match a, b with
  | [], [] => Eq
  | [], _ :: _ => Lt
  | _ :: _, [] => Gt
  | x :: a', y :: b' =>
      match cmp x y with
      | Eq => lex cmp a' b'
      | c => c
      end
  end.

(** A comparison that decides a total order. *)
Definition total_order {A : Type} (cmp : A -> A -> comparison) : Prop :=
  (forall x y, cmp x y = Eq <-> x = y)
  /\ (forall x y, cmp y x = CompOpp (cmp x y))
  /\ (forall x y z, cmp x y = Lt -> cmp y z = Lt -> cmp x z = Lt).

Definition is_lt (c : comparison) : bool :=
  match c with Lt => true | _ => false end.

(** Key elements in one order: numbers by value, strings by code points,
    a number before a string. On the keys of file names only elements of
    one kind are ever compared. *)
Definition tok_cmp (x y : token) : comparison :=
  match x, y with
  | TInt a, TInt b => N.compare a b
  | TStr a, TStr b => String.compare a b
  | TInt _, TStr _ => Lt
  | TStr _, TInt _ => Gt
  end.

Definition key_ltb (a b : list token) : bool := is_lt (lex tok_cmp a b).

(** A key whose elements are in turn strings and numbers; [want_int]
    tells the kind of the first. *)
Fixpoint alternating (want_int : bool) (k : list token) : bool :=
  match k with
  | [] => true
  | TInt _ :: k' => want_int && alternating false k'
  | TStr _ :: k' => negb want_int && alternating true k'
  end.

(** [x] is not after [y]: [y < x] is false. *)
Definition not_after {A : Type} (ltb : A -> A -> bool) (x y : A) : Prop :=
  ltb y x = false.

(** The converter after [ch2.md] of [sample_fs] was added. *)
Definition sample_one_chapter : converter :=
  fst (add_markdown_file sample_fs sample_yaml sample_convert sample_parser
         sample_soup_str sample_auto_id (PyPath.parse "book/ch2.md") None
         sample_init).

(** The converter after the batch over [book] of [sample_fs]. *)
Definition sample_batch_state : converter :=
  match add_markdown_directory sample_fs sample_yaml sample_convert
          sample_parser sample_soup_str sample_auto_id first_occurrence_order
          "book" "*.md" sample_init with
  | Ok (st, _) => st
  | Raise _ => sample_init
  end.

(** *** Vocabulary of the further properties *)

(** Two keys are the same key. *)
Definition same_key (a b : list token) : bool :=
  match lex tok_cmp a b with Eq => true | _ => false end.


Definition all_digits (s : string) : bool := PyStr.forallb PyStr.is_digit s.

(** A string of ASCII characters only. On such a string [\d],
    [str.isdigit], [int], [str.lower] and [str.title] of Python are the
    functions of [PyStr] character by character; a file name of this kind
    has a key, and the key is [_natural_sort_key] of the name. Outside of
    it [int] may raise [ValueError] on a run that [str.isdigit] accepts
    (a superscript digit), and [str.title] may change the length. *)
Definition ascii_only (s : string) : bool :=
  PyStr.forallb (fun c => (PyStr.code c <? 128)%nat) s.

(** A character that stands for itself in a [glob] pattern: no wild card,
    no bracket of a character class, no separator of path components. *)
Definition plain_char (c : ascii) : bool :=
  negb (Ascii.eqb c "*") && negb (Ascii.eqb c "?") && negb (Ascii.eqb c "[")
  && negb (Ascii.eqb c "]") && negb (Ascii.eqb c "/").

(** A pattern of the shape of the default [*.md]: one star, then plain
    characters. [Path.glob] matches it against the names of the entries
    of the directory, as [FS.glob] does. *)
Definition star_pattern (pat : string) : bool :=
  match pat with
  | String c lit => Ascii.eqb c "*" && PyStr.forallb plain_char lit
  | EmptyString => false
  end.

Definition blank (s : string) : bool := PyStr.forallb PyStr.is_space s.

(** The media type by the extension alone. *)
Definition media_type_of (image_path : Path) : string :=
  let ext := PyStr.lower (PyPath.suffix image_path) in
  if String.eqb ext ".jpg" || String.eqb ext ".jpeg" then "image/jpeg"
  else if String.eqb ext ".gif" then "image/gif"
  else "image/png".

(** What one call of [add_image_file] adds to the items of the book:
    the image when the file can be read, nothing otherwise. *)
Definition registered_items (fs : filesystem) (parent_path : string)
    (img_path : Path) : list item :=
  match FS.read fs img_path with
  | Ok image_content =>
      [ItemImage (PyPath.name img_path)
                 (PyStr.drop (String.length parent_path + 1) (PyPath.str img_path))
                 (media_type_of img_path) image_content]
  | Raise _ => []
  end.

Definition is_chapter_item (x : item) : bool :=
  match x with ItemChapter _ => true | _ => false end.

Definition is_cover_item (x : item) : bool :=
  match x with ItemCover _ _ | ItemCoverPage _ => true | _ => false end.

(** The three items [generate_epub] adds to the book. *)
Definition emitted_items : list item :=
  [ItemStyle "style_default" "style/default.css" "text/css" _get_default_css;
   ItemNcx; ItemNav].

(* ================================================================== *)
(** * Properties *)
(* ================================================================== *)

(** ** Running the definitions *)

Example natural_sort_key_examples :
  _natural_sort_key "ch2.md" = [TStr "ch"; TInt 2; TStr ".md"]
  /\ _natural_sort_key "0012" = [TStr ""; TInt 12; TStr ""]
  /\ _natural_sort_key "Ch10B" = [TStr "ch"; TInt 10; TStr "b"]
  /\ _natural_sort_key "" = [TStr ""].
Proof. repeat split; reflexivity. Qed.

Example path_examples :
  PyPath.str (PyPath.parse "books//my-book/") = "books/my-book"
  /\ PyPath.str (PyPath.parse "./") = "."
  /\ PyPath.str (PyPath.parse "/a/./b") = "/a/b"
  /\ PyPath.str (PyPath.parse "") = "."
  /\ PyPath.suffix (PyPath.parse "x/a.tar.GZ") = ".GZ"
  /\ PyPath.stem (PyPath.parse "x/my_first-chapter.md") = "my_first-chapter"
  /\ PyPath.suffix (PyPath.parse ".hidden") = "".
Proof. repeat split; reflexivity. Qed.

Example extract_title_heading (y : string -> result (option string)) :
  _extract_title y ("# Hello World" ++ nl ++ "text...") (PyPath.parse "a.md")
  = Ok "Hello World".
Proof. reflexivity. Qed.

Example extract_title_filename (y : string -> result (option string)) :
  _extract_title y "plain text" (PyPath.parse "docs/my_first-chapter.md")
  = Ok "My First Chapter".
Proof. reflexivity. Qed.

Example extract_title_setext (y : string -> result (option string)) :
  _extract_title y ("Title" ++ nl ++ "=====") (PyPath.parse "a.md") = Ok "Title".
Proof. reflexivity. Qed.

(** ** Cover attachment *)

Lemma image_media_type_state p st :
  let st' := fst (image_media_type p st) in
  book_items st' = book_items st /\ chapters st' = chapters st
  /\ spine st' = spine st /\ book_toc st' = book_toc st
  /\ book_spine_set st' = book_spine_set st /\ md st' = md st.
Proof.
  unfold image_media_type.
  destruct (_ || _); [repeat split |].
  destruct (String.eqb _ ".png"); [repeat split |].
  destruct (String.eqb _ ".gif"); repeat split.
Qed.

Lemma load_global_ext : load_global "ext" = Raise (NameError "ext").
Proof. reflexivity. Qed.

Lemma add_cover_image_state fs image_path st :
  let r := add_cover_image fs image_path st in
  snd r = false
  /\ book_items (fst r) = book_items st
  /\ chapters (fst r) = chapters st
  /\ spine (fst r) = spine st
  /\ book_toc (fst r) = book_toc st
  /\ book_spine_set (fst r) = book_spine_set st.
Proof.
  unfold add_cover_image.
  destruct (negb _); [repeat split |].
  destruct (FS.read fs _) as [cover_content | e]; [| repeat split].
  pose proof (image_media_type_state (PyPath.parse image_path) st) as H.
  destruct (image_media_type _ st) as [st1 media_type]. simpl in H.
  rewrite load_global_ext. simpl. tauto.
Qed.

(** C1. [add_cover_image] never sets a cover: whatever the path and the
    file system (so also for an existing, readable image file), it returns
    [False] and leaves the items of the book, the chapters and the spine
    as they were, because the name [ext] it formats into the cover's file
    name is bound nowhere. *)
Theorem add_cover_image_never_sets_cover :
  forall (fs : filesystem) (image_path : string) (st : converter),
    let r := add_cover_image fs image_path st in
    snd r = false
    /\ book_items (fst r) = book_items st
    /\ chapters (fst r) = chapters st
    /\ spine (fst r) = spine st.
Proof.
  intros fs image_path st.
  pose proof (add_cover_image_state fs image_path st) as H. simpl in *. tauto.
Qed.

(** On an existing, readable [cover.png] the call reports the
    [NameError] and gives [False]. *)
Example add_cover_image_on_existing_file :
  add_cover_image sample_fs "book/cover.png" sample_init
  = (print "✗ Failed to add cover: name 'ext' is not defined" sample_init,
     false).
Proof. reflexivity. Qed.

Example add_cover_image_on_missing_file :
  add_cover_image sample_fs "book/none.png" sample_init
  = (print "Cover image not found: book/none.png" sample_init, false).
Proof. reflexivity. Qed.

(** ** TitleResolver *)

(** The front-matter branch gives no title on any document. *)
Lemma front_matter_title_raises yaml_title lines yaml_end :
  front_matter_title yaml_title lines yaml_end = Raise (NameError "yaml").
Proof. reflexivity. Qed.

(** C2. On the document [---], [title: Foo], [---], [# Bar] the resolver
    returns [Bar], not the front-matter title [Foo]: [yaml] is not bound
    in the module, the [NameError] is swallowed by the bare [except], and
    the heading scan decides. This holds whatever a YAML parser would
    have answered; and on every document the title is the one of the
    heading scan, or else of the file name. *)
Theorem extract_title_front_matter_is_skipped :
  forall (yaml_title : string -> result (option string)) (md_path : Path),
    _extract_title yaml_title
      ("---" ++ nl ++ "title: Foo" ++ nl ++ "---" ++ nl ++ "# Bar") md_path
    = Ok "Bar"
    /\ forall md_content,
         _extract_title yaml_title md_content md_path
         = (h <- Title.scan_headings (PyStr.split_on "010" md_content)
                                     (PyStr.split_on "010" md_content) ;;
            match h with
            | Some t => Ok t
            | None => Ok (Title.from_filename md_path)
            end).
Proof.
  intros yaml_title md_path. split; [reflexivity |].
  intros md_content. unfold _extract_title.
  destruct (String.eqb _ "---"); [| reflexivity].
  destruct (Title.find_yaml_end 1 _) as [yaml_end |]; [| reflexivity].
  rewrite front_matter_title_raises. reflexivity.
Qed.

(** C4. A setext heading whose text line carries white space around it is
    not resolved: the loop strips the line and then asks [lines.index] for
    the stripped text, which is not an element of [lines], so
    [_extract_title] raises [ValueError]. Here the document is the line
    [Title] followed by a space, then a line of [=]. *)
Theorem extract_title_setext_raises :
  forall (yaml_title : string -> result (option string)) (md_path : Path),
    _extract_title yaml_title ("Title " ++ nl ++ "=====") md_path
    = Raise (ValueError "'Title' is not in list").
Proof. intros. reflexivity. Qed.

(** In general: when the first line is neither blank nor a [#] heading
    and its stripped text is no line of the document, the scan raises. *)
Lemma list_index_missing x xs : forall i,
  ~ In x xs ->
  list_index_from i x xs = Raise (ValueError ("'" ++ x ++ "' is not in list")).
Proof.
  induction xs as [| y xs IH]; intros i Hn; [reflexivity |].
  simpl. destruct (String.eqb_spec y x) as [-> | Hne].
  - exfalso. apply Hn. now left.
  - apply IH. intros H. apply Hn. now right.
Qed.

Lemma scan_headings_missing_line raw rest :
  PyStr.startswith "# " (PyStr.strip raw) = false ->
  PyStr.is_empty (PyStr.strip raw) = false ->
  ~ In (PyStr.strip raw) (raw :: rest) ->
  Title.scan_headings (raw :: rest) (raw :: rest)
  = Raise (ValueError ("'" ++ PyStr.strip raw ++ "' is not in list")).
Proof.
  intros H1 H2 H3. cbn [Title.scan_headings]. rewrite H1, H2.
  unfold list_index. now rewrite list_index_missing.
Qed.

(** The same lookup finds the first of two equal lines, so a setext
    heading that repeats an earlier line is missed without an error. *)
Example extract_title_setext_repeated_line
    (y : string -> result (option string)) :
  _extract_title y
    ("Notes" ++ nl ++ "" ++ nl ++ "Notes" ++ nl ++ "=====")
    (PyPath.parse "my-file.md")
  = Ok "My File".
Proof. reflexivity. Qed.

(** ** Decimal identifiers *)

Lemma of_nat_inj n m : PyStr.of_nat n = PyStr.of_nat m -> n = m.
Proof.
  unfold PyStr.of_nat. intros H.
  assert (Hu : Nat.to_uint n = Nat.to_uint m).
  { pose proof (NilEmpty.usu (Nat.to_uint n)) as Hn.
    pose proof (NilEmpty.usu (Nat.to_uint m)) as Hm.
    rewrite H in Hn. congruence. }
  rewrite <- (Unsigned.of_to n), <- (Unsigned.of_to m). now f_equal.
Qed.

Lemma string_length_append (a b : string) :
  String.length (a ++ b) = String.length a + String.length b.
Proof. induction a as [| c a IH]; simpl; [reflexivity | now rewrite IH]. Qed.

Lemma append_cancel_r (s a b : string) :
  (a ++ s)%string = (b ++ s)%string -> a = b.
Proof.
  intros H.
  assert (Hlen : String.length a = String.length b).
  { apply (f_equal String.length) in H. rewrite !string_length_append in H. lia. }
  revert b H Hlen. induction a as [| c a IH]; intros [| d b] H Hlen;
    simpl in Hlen; try discriminate; [reflexivity |].
  simpl in H. injection H as -> H. f_equal. apply IH; [exact H | lia].
Qed.

Lemma chapter_file_name_inj k l :
  chapter_file_name k = chapter_file_name l -> k = l.
Proof.
  unfold chapter_file_name. intros H. simpl in H.
  injection H as H. apply append_cancel_r in H. now apply of_nat_inj.
Qed.

Lemma numbered_snoc cs c :
  numbered cs -> h_file_name c = chapter_file_name (S (List.length cs)) ->
  numbered (cs ++ [c]).
Proof.
  unfold numbered. intros H Hc.
  rewrite map_app, length_app, Nat.add_1_r, seq_S, map_app, H. simpl.
  now rewrite Hc.
Qed.

Lemma numbered_nth cs :
  numbered cs ->
  forall k c, nth_error cs k = Some c -> h_file_name c = chapter_file_name (S k).
Proof.
  unfold numbered. intros H k c Hk.
  assert (Hlt : k < List.length cs) by (apply nth_error_Some; congruence).
  pose proof (map_nth_error h_file_name _ _ Hk) as H1.
  rewrite H in H1.
  rewrite (map_nth_error chapter_file_name k (seq 1 (List.length cs)) (d := S k)) in H1;
    [congruence |].
  rewrite nth_error_nth' with (d := 0) by (rewrite length_seq; exact Hlt).
  now rewrite seq_nth.
Qed.

Lemma numbered_NoDup cs : numbered cs -> NoDup (List.map h_file_name cs).
Proof.
  unfold numbered. intros ->.
  apply Injective_map_NoDup; [| apply seq_NoDup].
  intros k l. apply chapter_file_name_inj.
Qed.

(** ** Chapters, spine and table of contents *)

Section PipelineProperties.

Variable fs : filesystem.
Variable yaml_title : string -> result (option string).
Variable md_convert : list md_event -> string -> result string.
Variable html_parser : string -> result (list node).
Variable soup_str : list node -> string.
Variable auto_id : list item -> string.
Variable mkdir_parents : Path -> result unit.
Variable write_epub : string -> converter -> result unit.
Variable set_order : list Path -> list Path.

Local Abbreviation add_file :=
  (add_markdown_file fs yaml_title md_convert html_parser soup_str auto_id).
Local Abbreviation add_files :=
  (add_markdown_files fs yaml_title md_convert html_parser soup_str auto_id).
Local Abbreviation emit := (generate_epub mkdir_parents write_epub).
Local Abbreviation reach :=
  (reachable fs yaml_title md_convert html_parser soup_str auto_id
             mkdir_parents write_epub).

(** What a successful call does, with the identifier of the new chapter. *)
Lemma add_markdown_file_true md_path chapter_title st st' :
  add_file md_path chapter_title st = (st', true) ->
  exists chapter,
    chapters st' = chapters st ++ [chapter]
    /\ spine st' = spine st ++ [SpineChapter (List.length (chapters st))]
    /\ book_items st' = book_items st ++ [ItemChapter (List.length (chapters st))]
    /\ h_file_name chapter = (chapter_id st ++ ".xhtml")%string
    /\ book_toc st' = book_toc st
    /\ book_spine_set st' = book_spine_set st.
Proof.
  unfold add_markdown_file.
  destruct (build_chapter _ _ _ _ _ _ _ _ _) as [md' [chapter | e]] eqn:Hb;
    [| discriminate].
  intros H. injection H as <-. exists chapter. simpl.
  repeat split.
  unfold build_chapter in Hb.
  destruct (FS.read fs md_path) as [md_content | e]; [| discriminate].
  injection Hb as _ Hb.
  destruct (md_convert _ _); [simpl in Hb | discriminate].
  destruct (match chapter_title with Some _ => _ | None => _ end);
    [simpl in Hb | discriminate].
  destruct (_create_xhtml_content _ _ _ _); [simpl in Hb | discriminate].
  injection Hb as <-. reflexivity.
Qed.

Lemma add_markdown_file_false md_path chapter_title st st' :
  add_file md_path chapter_title st = (st', false) ->
  chapters st' = chapters st /\ spine st' = spine st
  /\ book_items st' = book_items st /\ book_toc st' = book_toc st
  /\ book_spine_set st' = book_spine_set st.
Proof.
  unfold add_markdown_file.
  destruct (build_chapter _ _ _ _ _ _ _ _ _) as [md' [chapter | e]];
    [discriminate |].
  intros H. injection H as <-. repeat split.
Qed.

(** C10. A call of [add_markdown_file] that returns [False] leaves the
    chapters, the spine and the items of the book as they were; a call
    that returns [True] has appended exactly one chapter to the chapters
    and the same chapter object to the spine and to the items. *)
Theorem add_markdown_file_all_or_nothing :
  forall (md_path : Path) (chapter_title : option string) (st : converter),
    match add_file md_path chapter_title st with
    | (st', false) =>
        chapters st' = chapters st
        /\ spine st' = spine st
        /\ book_items st' = book_items st
    | (st', true) =>
        exists chapter,
          chapters st' = chapters st ++ [chapter]
          /\ spine st' = spine st ++ [SpineChapter (List.length (chapters st))]
          /\ book_items st'
             = book_items st ++ [ItemChapter (List.length (chapters st))]
    end.
Proof.
  intros md_path chapter_title st.
  destruct (add_file md_path chapter_title st) as [st' [|]] eqn:H.
  - destruct (add_markdown_file_true _ _ _ _ H) as (c & H1 & H2 & H3 & _).
    exists c. auto.
  - destruct (add_markdown_file_false _ _ _ _ H) as (H1 & H2 & H3 & _). auto.
Qed.

(** *** Chapter identifiers *)

Lemma add_files_step files st n :
  fold_left (fun acc md_file =>
               let (st, success_count) := acc : converter * nat in
               let (st, ok) := add_file md_file None st in
               (st, if ok then success_count + 1 else success_count))
            files (st, n)
  = (fst (add_files files st), snd (add_files files st) + n).
Proof.
  unfold add_markdown_files.
  revert st n. induction files as [| f files IH]; intros st n; [reflexivity |].
  simpl. destruct (add_file f None st) as [st1 [|]].
  - rewrite (IH st1 (n + 1)), (IH st1 1). simpl. f_equal. lia.
  - apply IH.
Qed.

Lemma add_files_cons f files st :
  add_files (f :: files) st
  = let (st1, ok) := add_file f None st in
    (fst (add_files files st1),
     snd (add_files files st1) + (if ok then 1 else 0)).
Proof.
  unfold add_markdown_files at 1. simpl.
  destruct (add_file f None st) as [st1 ok].
  rewrite add_files_step. destruct ok; reflexivity.
Qed.

Lemma add_file_numbered md_path chapter_title st :
  numbered (chapters st) ->
  numbered (chapters (fst (add_file md_path chapter_title st))).
Proof.
  intros Hn.
  destruct (add_file md_path chapter_title st) as [st' [|]] eqn:H; simpl.
  - destruct (add_markdown_file_true _ _ _ _ H) as (c & -> & _ & _ & Hc & _).
    apply numbered_snoc; [exact Hn |].
    rewrite Hc. unfold chapter_id, chapter_file_name.
    rewrite Nat.add_1_r. reflexivity.
  - destruct (add_markdown_file_false _ _ _ _ H) as (-> & _). exact Hn.
Qed.

Lemma add_files_numbered files : forall st,
  numbered (chapters st) ->
  numbered (chapters (fst (add_files files st)))
  /\ List.length (chapters (fst (add_files files st)))
     = List.length (chapters st) + snd (add_files files st).
Proof.
  induction files as [| f files IH]; intros st Hn.
  - split; [exact Hn | simpl; lia].
  - rewrite add_files_cons.
    pose proof (add_file_numbered f None st Hn) as Hn1.
    destruct (add_file f None st) as [st1 ok] eqn:H. simpl in Hn1 |- *.
    destruct (IH st1 Hn1) as [IH1 IH2]. split; [exact IH1 |].
    rewrite IH2. destruct ok.
    + destruct (add_markdown_file_true _ _ _ _ H) as (c & -> & _).
      rewrite length_app. simpl. lia.
    + destruct (add_markdown_file_false _ _ _ _ H) as (-> & _). lia.
Qed.

Lemma add_files_app files1 files2 st :
  add_files (files1 ++ files2) st
  = (fst (add_files files2 (fst (add_files files1 st))),
     snd (add_files files2 (fst (add_files files1 st)))
     + snd (add_files files1 st)).
Proof.
  revert st. induction files1 as [| f files1 IH]; intros st.
  - simpl. rewrite Nat.add_0_r. now destruct (add_files files2 st).
  - change ((f :: files1) ++ files2) with (f :: files1 ++ files2).
    rewrite !add_files_cons.
    destruct (add_file f None st) as [st1 ok]. rewrite IH. simpl.
    f_equal. lia.
Qed.

(** Chapters are only ever appended. *)
Lemma add_files_extends files : forall st,
  exists later, chapters (fst (add_files files st)) = chapters st ++ later.
Proof.
  induction files as [| f files IH]; intros st.
  - exists []. simpl. now rewrite app_nil_r.
  - rewrite add_files_cons.
    destruct (add_file f None st) as [st1 [|]] eqn:H; simpl;
      destruct (IH st1) as [later Hl]; rewrite Hl.
    + destruct (add_markdown_file_true _ _ _ _ H) as (c & -> & _).
      exists (c :: later). now rewrite <- app_assoc.
    + destruct (add_markdown_file_false _ _ _ _ H) as (-> & _).
      now exists later.
Qed.

(** C8. In a run of [add_markdown_file] over the discovered files,
    starting with no chapter: there are as many chapters as calls that
    succeeded, so a failed file leaves no chapter and no placeholder;
    the k-th chapter (counting from 1, in the order of the calls) has
    the file name [chapter_k.xhtml], built from the identifier
    [chapter_k]; no file name, hence no identifier, is used twice; and
    the chapters present after the first files of the run are still the
    first chapters at its end, so the numbers follow the order of
    discovery. *)
Theorem chapter_identifiers_sequential :
  forall (md_files : list Path) (st : converter),
    chapters st = [] ->
    let st' := fst (add_files md_files st) in
    let success_count := snd (add_files md_files st) in
    List.length (chapters st') = success_count
    /\ (forall k chapter,
           nth_error (chapters st') k = Some chapter ->
           h_file_name chapter
           = ("chapter_" ++ PyStr.of_nat (S k) ++ ".xhtml")%string)
    /\ NoDup (List.map h_file_name (chapters st'))
    /\ (forall files1 files2,
           md_files = files1 ++ files2 ->
           exists later,
             chapters st' = chapters (fst (add_files files1 st)) ++ later).
Proof.
  intros md_files st Hnil.
  assert (Hn : numbered (chapters st)) by (rewrite Hnil; reflexivity).
  destruct (add_files_numbered md_files st Hn) as [H1 H2].
  rewrite Hnil in H2. simpl in H2 |- *.
  split; [exact H2 | split; [| split]].
  - intros k c Hk. exact (numbered_nth _ H1 _ _ Hk).
  - apply numbered_NoDup, H1.
  - intros files1 files2 ->. rewrite add_files_app. simpl.
    apply add_files_extends.
Qed.

(** *** Spine and table of contents *)

Lemma add_image_file_state img_path parent_path st :
  let st' := fst (add_image_file fs img_path parent_path st) in
  chapters st' = chapters st /\ spine st' = spine st
  /\ book_toc st' = book_toc st /\ book_spine_set st' = book_spine_set st.
Proof.
  unfold add_image_file.
  destruct (FS.read fs img_path) as [c | e]; [| repeat split].
  pose proof (image_media_type_state img_path st) as H.
  destruct (image_media_type img_path st) as [st1 mt]. simpl in *. tauto.
Qed.

Lemma add_custom_css_state css_content st :
  let st' := fst (add_custom_css css_content st) in
  spine st' = spine st
  /\ List.length (chapters st') = List.length (chapters st)
  /\ toc_of (chapters st') = toc_of (chapters st)
  /\ List.map h_file_name (chapters st') = List.map h_file_name (chapters st)
  /\ book_spine_set st' = book_spine_set st.
Proof.
  cbv zeta. unfold add_custom_css. cbn [fst print set_chapters book_add_item
    spine chapters book_spine_set].
  unfold toc_of. rewrite length_map, !map_map. cbn [h_file_name h_title h_uid].
  repeat split.
Qed.

Lemma generate_epub_state output_path st :
  chapters st <> [] ->
  let st' := fst (emit output_path st) in
  spine st' = spine st
  /\ book_spine_set st' = true
  /\ List.length (chapters st') = List.length (chapters st)
  /\ book_toc st' = toc_of (chapters st')
  /\ toc_of (chapters st') = toc_of (chapters st).
Proof.
  intros Hne. cbv zeta. unfold generate_epub.
  destruct (chapters st) as [| c0 cs] eqn:Hcs; [contradiction |].
  rewrite <- Hcs.
  destruct (add_custom_css_state None st) as (H1 & H2 & H3 & _).
  set (st1 := fst (add_custom_css None st)) in *.
  destruct (bind _ _) as [u | e];
    cbn [fst print set_book_spine set_book_toc book_add_item spine chapters
         book_spine_set book_toc];
    auto.
Qed.

Lemma generate_epub_keeps output_path st :
  spine (fst (emit output_path st)) = spine st
  /\ List.length (chapters (fst (emit output_path st)))
     = List.length (chapters st).
Proof.
  destruct (chapters st) as [| c0 cs] eqn:Hcs.
  - unfold generate_epub. rewrite Hcs. cbn [fst print spine chapters].
    rewrite Hcs. split; reflexivity.
  - destruct (generate_epub_state output_path st) as (H1 & _ & H2 & _);
      [congruence |].
    rewrite Hcs in H2. split; assumption.
Qed.

(** The spine lists the chapter objects in the order of the store, in
    every state of a converter. *)
Lemma reachable_spine st : reach st -> spine_follows_chapters st.
Proof.
  unfold spine_follows_chapters.
  induction 1 as [| line st _ IH | p t st _ IH | p q st _ IH | c st _ IH
                  | p st _ IH | p st _ IH].
  - reflexivity.
  - exact IH.
  - destruct (add_file p t st) as [st' [|]] eqn:H; simpl.
    + destruct (add_markdown_file_true _ _ _ _ H) as (ch & -> & -> & _).
      rewrite IH, length_app, Nat.add_1_r, seq_S, map_app. reflexivity.
    + destruct (add_markdown_file_false _ _ _ _ H) as (-> & -> & _). exact IH.
  - destruct (add_image_file_state p q st) as (-> & -> & _). exact IH.
  - destruct (add_custom_css_state c st) as (-> & -> & _). exact IH.
  - destruct (add_cover_image_state fs p st) as (_ & _ & -> & -> & _). exact IH.
  - destruct (generate_epub_keeps p st) as (-> & ->). exact IH.
Qed.

(** The batch operations and [main] stay within the reachable states. *)
Lemma add_files_reachable files : forall st,
  reach st -> reach (fst (add_files files st)).
Proof.
  induction files as [| f files IH]; intros st Hr; [exact Hr |].
  rewrite add_files_cons.
  pose proof (reach_add_markdown_file fs yaml_title md_convert html_parser
                soup_str auto_id mkdir_parents write_epub f None st Hr) as H1.
  destruct (add_file f None st) as [st1 ok]. simpl in *. now apply IH.
Qed.

Lemma add_image_files_reachable imgs parent_path : forall st,
  reach st -> reach (add_image_files fs imgs parent_path st).
Proof.
  unfold add_image_files.
  induction imgs as [| i imgs IH]; intros st Hr; [exact Hr |].
  simpl. apply IH. now constructor.
Qed.

Lemma add_markdown_directory_reachable directory_path pattern st st' ok :
  reach st ->
  add_markdown_directory fs yaml_title md_convert html_parser soup_str auto_id
    set_order directory_path pattern st = Ok (st', ok) ->
  reach st'.
Proof.
  intros Hr. unfold add_markdown_directory.
  destruct (negb _).
  - intros H. injection H as <- _. now constructor.
  - destruct (Key.sorted _ _) as [md_files | e]; [simpl | discriminate].
    destruct md_files as [| f files].
    + intros H. injection H as <- _. now constructor.
    + pose proof (add_files_reachable (f :: files) _
                    (reach_print _ _ _ _ _ _ _ _
                       ("Found " ++ PyStr.of_nat (List.length (f :: files))
                        ++ " Markdown files") st Hr)) as H1.
      destruct (add_files (f :: files) _) as [st1 n]. simpl in H1.
      intros H. injection H as <- _.
      apply add_image_files_reachable. constructor. now constructor.
Qed.

Lemma main_reachable book_uuid argv meta st :
  main fs yaml_title md_convert html_parser soup_str auto_id mkdir_parents
       write_epub set_order book_uuid argv = Ok (meta, st) ->
  reach st.
Proof.
  unfold main. destruct (main_markdown_dir argv) as [dir | e]; [simpl | discriminate].
  destruct (add_markdown_directory _ _ _ _ _ _ _ _ _ _) as [[st1 ok] | e] eqn:Hd;
    [simpl | discriminate].
  apply add_markdown_directory_reachable in Hd; [| constructor].
  destruct ok; simpl.
  - match goal with
    | |- context [generate_epub _ _ ?o ?s] =>
        pose proof (reach_generate_epub fs yaml_title md_convert html_parser
                      soup_str auto_id mkdir_parents write_epub o s) as Hg;
        destruct (generate_epub mkdir_parents write_epub o s) as [st2 ok2]
    end.
    intros H. injection H as _ <-. constructor. apply Hg.
    destruct (FS.exists_ fs _); [now constructor | exact Hd].
  - intros H. injection H as _ <-. now constructor.
Qed.

(** C9. When [generate_epub] runs on a converter with n >= 1 chapters,
    the spine it sets on the book has n+1 entries, the navigation entry
    and then the chapter objects in the order they were added; the table
    of contents has n entries, one per chapter in that order, each made
    of the chapter's file name, title and identifier, each with an empty
    list of children; file names, titles and identifiers are those the
    chapters had before the call. *)
Theorem generate_epub_spine_and_toc :
  forall (output_path : string) (st : converter),
    reach st ->
    1 <= List.length (chapters st) ->
    let st' := fst (emit output_path st) in
    let n := List.length (chapters st) in
    List.length (chapters st') = n
    /\ book_spine st' = SpineNav :: List.map SpineChapter (seq 0 n)
    /\ List.length (book_spine st') = n + 1
    /\ book_toc st'
       = List.map (fun chapter =>
                     (mkLink (h_file_name chapter) (h_title chapter)
                             (h_uid chapter), @nil Link))
                  (chapters st')
    /\ List.length (book_toc st') = n
    /\ Forall (fun entry => snd entry = []) (book_toc st')
    /\ book_toc st'
       = List.map (fun chapter =>
                     (mkLink (h_file_name chapter) (h_title chapter)
                             (h_uid chapter), @nil Link))
                  (chapters st).
Proof.
  intros output_path st Hr Hn. cbv zeta.
  assert (Hne : chapters st <> []) by (destruct (chapters st); simpl in Hn; [lia | discriminate]).
  destruct (generate_epub_state output_path st Hne) as (H1 & H2 & H3 & H4 & H5).
  pose proof (reachable_spine st Hr) as Hs. unfold spine_follows_chapters in Hs.
  unfold book_spine. rewrite H2, H1, Hs, H4. unfold toc_of in H5 |- *.
  split; [exact H3 |]. split; [reflexivity |].
  split; [simpl; rewrite length_map, length_seq; lia |].
  split; [reflexivity |].
  split; [rewrite length_map; exact H3 |].
  split; [| exact H5].
  apply Forall_forall. intros e He. apply in_map_iff in He.
  destruct He as (c & <- & _). reflexivity.
Qed.

End PipelineProperties.

Lemma chapter_identifiers_sequential_witness :
  chapters sample_init = []
  /\ let r := add_markdown_files sample_fs sample_yaml sample_convert
                sample_parser sample_soup_str sample_auto_id
                sample_files sample_init in
     List.length (chapters (fst r)) = snd r
     /\ (forall k chapter,
            nth_error (chapters (fst r)) k = Some chapter ->
            h_file_name chapter
            = ("chapter_" ++ PyStr.of_nat (S k) ++ ".xhtml")%string)
     /\ NoDup (List.map h_file_name (chapters (fst r)))
     /\ (forall files1 files2,
            sample_files = files1 ++ files2 ->
            exists later,
              chapters (fst r)
              = chapters (fst (add_markdown_files sample_fs sample_yaml
                                 sample_convert sample_parser sample_soup_str
                                 sample_auto_id files1 sample_init))
                ++ later).
Proof.
  split; [reflexivity |].
  apply (chapter_identifiers_sequential sample_fs sample_yaml sample_convert
           sample_parser sample_soup_str sample_auto_id sample_files sample_init).
  reflexivity.
Defined.

(** The run behind the witness: the unreadable file is skipped and the
    two others are [chapter_1] and [chapter_2]. *)
Example sample_run_chapters :
  let r := add_markdown_files sample_fs sample_yaml sample_convert
             sample_parser sample_soup_str sample_auto_id
             sample_files sample_init in
  snd r = 2
  /\ List.map h_file_name (chapters (fst r)) = ["chapter_1.xhtml"; "chapter_2.xhtml"]
  /\ List.map h_title (chapters (fst r)) = ["Two"; "Ten"]
  /\ spine (fst r) = [SpineNav; SpineChapter 0; SpineChapter 1].
Proof. vm_compute. repeat split. Qed.

Example add_markdown_file_unreadable :
  add_markdown_file sample_fs sample_yaml sample_convert sample_parser
    sample_soup_str sample_auto_id (PyPath.parse "book/broken.md") None sample_init
  = (print "✗ Failed to add file book/broken.md: Permission denied" sample_init,
     false).
Proof. reflexivity. Qed.

Lemma generate_epub_spine_and_toc_witness :
  let st := fst (add_markdown_file sample_fs sample_yaml sample_convert
                   sample_parser sample_soup_str sample_auto_id
                   (PyPath.parse "book/ch2.md") None sample_init) in
  let st' := fst (generate_epub sample_mkdir sample_write "./output/book.epub" st) in
  1 <= List.length (chapters st)
  /\ List.length (chapters st') = List.length (chapters st)
  /\ book_spine st'
     = SpineNav :: List.map SpineChapter (seq 0 (List.length (chapters st)))
  /\ List.length (book_spine st') = List.length (chapters st) + 1
  /\ book_toc st'
     = List.map (fun chapter =>
                   (mkLink (h_file_name chapter) (h_title chapter)
                           (h_uid chapter), @nil Link))
                (chapters st')
  /\ List.length (book_toc st') = List.length (chapters st)
  /\ Forall (fun entry => snd entry = []) (book_toc st')
  /\ book_toc st'
     = List.map (fun chapter =>
                   (mkLink (h_file_name chapter) (h_title chapter)
                           (h_uid chapter), @nil Link))
                (chapters st).
Proof.
  cbv zeta.
  assert (H1 : 1 <= List.length (chapters (fst (add_markdown_file sample_fs
                 sample_yaml sample_convert sample_parser sample_soup_str
                 sample_auto_id (PyPath.parse "book/ch2.md") None sample_init))))
    by (vm_compute; lia).
  split; [exact H1 |].
  apply (generate_epub_spine_and_toc sample_fs sample_yaml sample_convert
           sample_parser sample_soup_str sample_auto_id sample_mkdir sample_write
           "./output/book.epub" _
           (reach_add_markdown_file _ _ _ _ _ _ _ _ _ _ _
              (reach_init _ _ _ _ _ _ _ _ "id" "book" "Unknown" "en" [])) H1).
Defined.

(** ** ContentNormalizer *)

(** Induction on a document node, with the hypothesis for every child. *)
Lemma node_rect_children (P : node -> Prop) :
  (forall s, P (Str s)) ->
  (forall nm at_ ch, Forall P ch -> P (Tag nm at_ ch)) ->
  forall n, P n.
Proof.
  intros HS HT.
  fix IH 1. intros [nm at_ ch | s]; [| apply HS].
  apply HT. induction ch as [| x ch IHch]; constructor; [apply IH | exact IHch].
Qed.

Lemma find_in_tag nm at_ ch :
  Soup.find_in (Tag nm at_ ch) = Soup.find_from 0 ch.
Proof.
  simpl. generalize 0.
  induction ch as [| x ch IH]; intros i; simpl; [reflexivity |].
  destruct (Soup.is_h1 x); [reflexivity |].
  destruct (Soup.find_in x); [reflexivity | apply IH].
Qed.

Lemma events_of_cons x l :
  Soup.events_of (x :: l) = Soup.events x ++ Soup.events_of l.
Proof. reflexivity. Qed.

(** A node in which [find] finds nothing starts no [h1]. *)
Lemma no_h1_in_node :
  forall n, Soup.is_h1 n = false -> Soup.find_in n = None ->
            filter Soup.is_h1_start (Soup.events n) = [].
Proof.
  induction n as [s | nm at_ ch IH] using node_rect_children; intros Hn Hf;
    [reflexivity |].
  rewrite find_in_tag in Hf. simpl in Hn |- *. rewrite Hn.
  rewrite filter_app. simpl. rewrite app_nil_r.
  fold (Soup.events_of ch).
  revert Hf. generalize 0.
  induction IH as [| x ch Hx _ IHch]; intros i Hf; [reflexivity |].
  simpl in Hf. rewrite events_of_cons, filter_app.
  destruct (Soup.is_h1 x) eqn:Hx1; [discriminate |].
  destruct (Soup.find_in x) eqn:Hx2; [discriminate |].
  rewrite (Hx eq_refl eq_refl). simpl. exact (IHch _ Hf).
Qed.

Lemma get_nonempty q l e : Soup.get q l = Some e -> q <> [].
Proof. destruct q; [discriminate | discriminate]. Qed.

Lemma cut_at_here x l : Soup.is_h1 x = true -> cut_at [0] (x :: l).
Proof.
  intros Hx. exists x, [], (Soup.events_of l).
  split; [reflexivity |]. split; [exact Hx |]. repeat split.
Qed.

Lemma cut_at_inside nm at_ ch l q :
  Soup.is_h1 (Tag nm at_ ch) = false ->
  cut_at q ch -> cut_at (0 :: q) (Tag nm at_ ch :: l).
Proof.
  intros Hx (e & before & after & Hg & He & Hev & Hb & Hd).
  exists e, (Start nm at_ :: before), (after ++ Finish nm :: Soup.events_of l).
  pose proof (get_nonempty _ _ _ Hg) as Hq.
  destruct q as [| j q]; [contradiction |].
  repeat split.
  - exact Hg.
  - exact He.
  - rewrite events_of_cons. simpl. fold (Soup.events_of ch). rewrite Hev.
    rewrite <- !app_assoc. reflexivity.
  - simpl in Hx |- *. rewrite Hx. exact Hb.
  - change (Soup.decompose (0 :: j :: q) (Tag nm at_ ch :: l))
      with (Tag nm at_ (Soup.decompose (j :: q) ch) :: l).
    rewrite events_of_cons. cbn [Soup.events].
    fold (Soup.events_of (Soup.decompose (j :: q) ch)).
    rewrite Hd. cbn [app]. rewrite <- !app_assoc. reflexivity.
Qed.

Lemma cut_at_later x l j q :
  filter Soup.is_h1_start (Soup.events x) = [] ->
  cut_at (j :: q) l -> cut_at (S j :: q) (x :: l).
Proof.
  intros Hx (e & before & after & Hg & He & Hev & Hb & Hd).
  exists e, (Soup.events x ++ before), after.
  repeat split.
  - exact Hg.
  - exact He.
  - rewrite events_of_cons, Hev, <- app_assoc. reflexivity.
  - rewrite filter_app, Hx, Hb. reflexivity.
  - assert (Hdec : Soup.decompose (S j :: q) (x :: l)
                   = x :: Soup.decompose (j :: q) l)
      by (destruct q; reflexivity).
    rewrite Hdec, events_of_cons, Hd, <- app_assoc. reflexivity.
Qed.

(** Where [find] points there is the first [h1], and decomposing it cuts
    exactly that element out of the document. *)
Lemma find_from_cut :
  forall l,
    Forall (fun n => forall nm at_ ch p,
                n = Tag nm at_ ch -> Soup.find_in n = Some p -> cut_at p ch) l ->
    forall i p, Soup.find_from i l = Some p ->
                exists j q, p = (i + j) :: q /\ cut_at (j :: q) l.
Proof.
  induction 1 as [| x l Hx _ IH]; intros i p Hf; [discriminate |].
  simpl in Hf.
  destruct (Soup.is_h1 x) eqn:Hx1.
  - injection Hf as <-. exists 0, []. rewrite Nat.add_0_r.
    split; [reflexivity | now apply cut_at_here].
  - destruct (Soup.find_in x) as [q |] eqn:Hx2.
    + injection Hf as <-. exists 0, q. rewrite Nat.add_0_r.
      split; [reflexivity |].
      destruct x as [nm at_ ch | s]; [| discriminate].
      apply cut_at_inside; [exact Hx1 |].
      exact (Hx nm at_ ch q eq_refl eq_refl).
    + destruct (IH _ _ Hf) as (j & q & -> & Hc).
      exists (S j), q. split; [f_equal; lia |].
      apply cut_at_later; [| exact Hc].
      now apply no_h1_in_node.
Qed.

Lemma find_in_cut :
  forall n nm at_ ch p,
    n = Tag nm at_ ch -> Soup.find_in n = Some p -> cut_at p ch.
Proof.
  induction n as [s | nm0 at0 ch0 IH] using node_rect_children;
    intros nm at_ ch p Hn Hf; [discriminate |].
  injection Hn as -> -> ->. rewrite find_in_tag in Hf.
  destruct (find_from_cut ch IH 0 p Hf) as (j & q & -> & Hc). exact Hc.
Qed.

Lemma find_h1_cut soup p : Soup.find_h1 soup = Some p -> cut_at p soup.
Proof.
  intros Hf.
  destruct (find_from_cut soup) with (i := 0) (p := p) as (j & q & -> & Hc).
  - apply Forall_forall. intros n _. apply find_in_cut.
  - exact Hf.
  - exact Hc.
Qed.

Lemma find_h1_none soup :
  Soup.find_h1 soup = None -> Soup.count_h1 soup = 0.
Proof.
  unfold Soup.find_h1, Soup.count_h1. generalize 0 at 1.
  induction soup as [| x l IH]; intros i Hf; [reflexivity |].
  simpl in Hf. rewrite events_of_cons, filter_app, length_app.
  destruct (Soup.is_h1 x) eqn:Hx1; [discriminate |].
  destruct (Soup.find_in x) eqn:Hx2; [discriminate |].
  rewrite (no_h1_in_node x Hx1 Hx2), (IH _ Hf). reflexivity.
Qed.

(** C6, as amended. [_create_xhtml_content] writes out the parsed
    document after this change: when it holds no [h1] element it is left
    as it is; otherwise the first [h1] element in document order is
    removed together with all that is nested in it, and all that comes
    before and after that element stays, in the same order. So every
    [h1] that is not inside the first one is kept. *)
Theorem create_xhtml_content_removes_first_h1 :
  forall (html_parser : string -> result (list node))
         (soup_str : list node -> string)
         (html_content title : string) (soup : list node),
    html_parser html_content = Ok soup ->
    _create_xhtml_content html_parser soup_str html_content title
    = Ok (soup_str (Soup.remove_first_h1 soup))
    /\ match Soup.find_h1 soup with
       | None => Soup.remove_first_h1 soup = soup /\ Soup.count_h1 soup = 0
       | Some p =>
           exists first_h1 before after,
             Soup.get p soup = Some first_h1
             /\ Soup.is_h1 first_h1 = true
             /\ Soup.events_of soup = before ++ Soup.events first_h1 ++ after
             /\ filter Soup.is_h1_start before = []
             /\ Soup.events_of (Soup.remove_first_h1 soup) = before ++ after
       end.
Proof.
  intros html_parser soup_str html_content title soup Hp.
  split.
  - unfold _create_xhtml_content. rewrite Hp. reflexivity.
  - unfold Soup.remove_first_h1.
    destruct (Soup.find_h1 soup) as [p |] eqn:Hf.
    + exact (find_h1_cut soup p Hf).
    + split; [reflexivity | now apply find_h1_none].
Qed.

Lemma create_xhtml_content_removes_first_h1_witness :
  sample_parser "x" = Ok [Tag "h1" [] [Str "T"]; Tag "p" [] [Str "x"]]
  /\ _create_xhtml_content sample_parser sample_soup_str "x" "T"
     = Ok (sample_soup_str
             (Soup.remove_first_h1 [Tag "h1" [] [Str "T"]; Tag "p" [] [Str "x"]]))
  /\ match Soup.find_h1 [Tag "h1" [] [Str "T"]; Tag "p" [] [Str "x"]] with
     | None =>
         Soup.remove_first_h1 [Tag "h1" [] [Str "T"]; Tag "p" [] [Str "x"]]
         = [Tag "h1" [] [Str "T"]; Tag "p" [] [Str "x"]]
         /\ Soup.count_h1 [Tag "h1" [] [Str "T"]; Tag "p" [] [Str "x"]] = 0
     | Some p =>
         exists first_h1 before after,
           Soup.get p [Tag "h1" [] [Str "T"]; Tag "p" [] [Str "x"]] = Some first_h1
           /\ Soup.is_h1 first_h1 = true
           /\ Soup.events_of [Tag "h1" [] [Str "T"]; Tag "p" [] [Str "x"]]
              = before ++ Soup.events first_h1 ++ after
           /\ filter Soup.is_h1_start before = []
           /\ Soup.events_of
                (Soup.remove_first_h1 [Tag "h1" [] [Str "T"]; Tag "p" [] [Str "x"]])
              = before ++ after
     end.
Proof.
  split; [reflexivity |].
  apply (create_xhtml_content_removes_first_h1 sample_parser sample_soup_str
           "x" "T" [Tag "h1" [] [Str "T"]; Tag "p" [] [Str "x"]]).
  reflexivity.
Defined.

(** The statement of the specification fails on a heading nested in the
    first heading:
    the document has two [h1] elements, and none is left, where one was
    to be preserved. *)
Lemma nested_h1_not_preserved :
  Soup.count_h1 nested_h1_soup = 2
  /\ Soup.remove_first_h1 nested_h1_soup = [Tag "p" [] [Str "Body"]]
  /\ Soup.count_h1 (Soup.remove_first_h1 nested_h1_soup)
     <> Soup.count_h1 nested_h1_soup - 1
  /\ _create_xhtml_content (fun _ => Ok nested_h1_soup) sample_soup_str
       "<h1>Title <div><h1>Inner</h1></div></h1><p>Body</p>" "Title"
     = Ok "<p>Body</p>".
Proof. repeat split. discriminate. Qed.

(** A later heading that is not nested is kept. *)
Example second_h1_kept :
  Soup.remove_first_h1 two_h1_soup
  = [Tag "p" [] [Str "Body"]; Tag "h1" [] [Str "Again"]].
Proof. reflexivity. Qed.

(** ** Orders and sorting *)

Section LexOrder.

Variable A : Type.
Variable cmp : A -> A -> comparison.
Hypothesis cmp_total : total_order cmp.

Lemma cmp_refl x : cmp x x = Eq.
Proof. now apply cmp_total. Qed.

Lemma lex_eq a b : lex cmp a b = Eq <-> a = b.
Proof.
  destruct cmp_total as (Heq & _).
  revert b. induction a as [| x a IH]; intros [| y b]; simpl;
    try (split; [discriminate | discriminate]); [tauto |].
  destruct (cmp x y) eqn:Hc.
  - apply Heq in Hc. subst y. rewrite IH. split; [now intros -> | congruence].
  - split; [discriminate |]. intros H. injection H as -> _.
    rewrite cmp_refl in Hc. discriminate.
  - split; [discriminate |]. intros H. injection H as -> _.
    rewrite cmp_refl in Hc. discriminate.
Qed.

Lemma lex_antisym a b : lex cmp b a = CompOpp (lex cmp a b).
Proof.
  destruct cmp_total as (_ & Hanti & _).
  revert b. induction a as [| x a IH]; intros [| y b]; simpl; try reflexivity.
  rewrite (Hanti x y). destruct (cmp x y); simpl; [apply IH | | ]; reflexivity.
Qed.

Lemma lex_trans a b c :
  lex cmp a b = Lt -> lex cmp b c = Lt -> lex cmp a c = Lt.
Proof.
  destruct cmp_total as (Heq & Hanti & Htrans).
  revert b c. induction a as [| x a IH]; intros [| y b] [| z c]; simpl;
    try discriminate; try reflexivity.
  destruct (cmp x y) eqn:Hxy; try discriminate.
  - apply Heq in Hxy. subst y.
    destruct (cmp x z); try discriminate; [apply IH | reflexivity].
  - intros _. destruct (cmp y z) eqn:Hyz; try discriminate.
    + apply Heq in Hyz. subst z. now rewrite Hxy.
    + intros _. now rewrite (Htrans _ _ _ Hxy Hyz).
Qed.

Lemma lex_total_order : total_order (lex cmp).
Proof.
  split; [exact lex_eq | split; [| exact lex_trans]].
  intros a b. apply lex_antisym.
Qed.

End LexOrder.

(** A total order read as a [<]: it is asymmetric, and "not after" is
    transitive. *)
Section OrderAsLtb.

Variable K : Type.
Variable cmp : K -> K -> comparison.
Hypothesis cmp_total : total_order cmp.

Lemma is_lt_asym x y : is_lt (cmp x y) = true -> is_lt (cmp y x) = false.
Proof.
  destruct cmp_total as (_ & Hanti & _).
  rewrite (Hanti x y). now destruct (cmp x y).
Qed.

Lemma is_lt_not_after_trans x y z :
  is_lt (cmp y x) = false -> is_lt (cmp z y) = false -> is_lt (cmp z x) = false.
Proof.
  destruct cmp_total as (Heq & Hanti & Htrans).
  destruct (cmp z x) eqn:Hzx; try reflexivity.
  destruct (cmp z y) eqn:Hzy; try discriminate.
  - apply Heq in Hzy. subst y. now rewrite Hzx.
  - intros Hyx _. exfalso.
    assert (Hyz : cmp y z = Lt) by (rewrite (Hanti z y), Hzy; reflexivity).
    rewrite (Htrans _ _ _ Hyz Hzx) in Hyx. discriminate.
Qed.

Lemma is_lt_total x y : x <> y -> is_lt (cmp y x) = false -> is_lt (cmp x y) = true.
Proof.
  destruct cmp_total as (Heq & Hanti & _).
  intros Hne. rewrite (Hanti x y).
  destruct (cmp x y) eqn:Hc; try reflexivity; try discriminate.
  apply Heq in Hc. contradiction.
Qed.

End OrderAsLtb.

Lemma N_compare_total_order : total_order N.compare.
Proof.
  split; [apply N.compare_eq_iff | split].
  - intros x y. apply N.compare_antisym.
  - intros x y z. rewrite !N.compare_lt_iff. apply N.lt_trans.
Qed.

Lemma ascii_compare_total_order : total_order Ascii.compare.
Proof.
  unfold Ascii.compare. destruct N_compare_total_order as (Heq & Hanti & Htrans).
  split; [| split].
  - intros x y. rewrite Heq. split; [| now intros ->].
    intros H. apply (f_equal ascii_of_N) in H.
    now rewrite !ascii_N_embedding in H.
  - intros x y. apply Hanti.
  - intros x y z. apply Htrans.
Qed.

Lemma string_compare_lex s t :
  String.compare s t
  = lex Ascii.compare (list_ascii_of_string s) (list_ascii_of_string t).
Proof.
  revert t. induction s as [| c s IH]; intros [| d t]; simpl; try reflexivity.
  rewrite IH. reflexivity.
Qed.

Lemma list_ascii_of_string_inj s t :
  list_ascii_of_string s = list_ascii_of_string t -> s = t.
Proof.
  intros H. apply (f_equal string_of_list_ascii) in H.
  now rewrite !string_of_list_ascii_of_string in H.
Qed.

Lemma string_compare_total_order : total_order String.compare.
Proof.
  destruct (lex_total_order _ _ ascii_compare_total_order) as (Heq & Hanti & Htrans).
  split; [| split].
  - intros s t. rewrite string_compare_lex, Heq.
    split; [apply list_ascii_of_string_inj | now intros ->].
  - intros s t. rewrite !string_compare_lex. apply Hanti.
  - intros s t u. rewrite !string_compare_lex. apply Htrans.
Qed.

Lemma tok_cmp_total_order : total_order tok_cmp.
Proof.
  destruct N_compare_total_order as (Neq & Nanti & Ntrans).
  destruct string_compare_total_order as (Seq & Santi & Strans).
  split; [| split].
  - intros [a | a] [b | b]; simpl; try (split; discriminate).
    + rewrite Neq. split; congruence.
    + rewrite Seq. split; congruence.
  - intros [a | a] [b | b]; simpl; try reflexivity; [apply Nanti | apply Santi].
  - intros [a | a] [b | b] [c | c]; simpl; try discriminate; try reflexivity;
      [apply Ntrans | apply Strans].
Qed.

Section SortBy.

Variable A : Type.
Variable ltb : A -> A -> bool.
Hypothesis ltb_asym : forall x y, ltb x y = true -> ltb y x = false.
Hypothesis ltb_not_after_trans :
  forall x y z, ltb y x = false -> ltb z y = false -> ltb z x = false.

Lemma insert_by_perm x l : Permutation (x :: l) (insert_by ltb x l).
Proof.
  induction l as [| y l IH]; simpl; [reflexivity |].
  destruct (ltb y x); [| reflexivity].
  rewrite perm_swap. now constructor.
Qed.

Lemma sort_by_perm l : Permutation l (sort_by ltb l).
Proof.
  induction l as [| x l IH]; simpl; [constructor |].
  rewrite <- insert_by_perm. now constructor.
Qed.

Lemma insert_by_sorted x l :
  StronglySorted (not_after ltb) l ->
  StronglySorted (not_after ltb) (insert_by ltb x l).
Proof.
  induction 1 as [| y l Hs IH Hy]; simpl.
  - repeat constructor.
  - destruct (ltb y x) eqn:Hyx.
    + constructor; [exact IH |].
      apply (Permutation_Forall (insert_by_perm x l)).
      constructor; [exact (ltb_asym _ _ Hyx) | exact Hy].
    + constructor; [now constructor |].
      constructor; [exact Hyx |].
      apply Forall_forall. intros z Hz.
      rewrite Forall_forall in Hy.
      exact (ltb_not_after_trans x y z Hyx (Hy z Hz)).
Qed.

Lemma sort_by_sorted l : StronglySorted (not_after ltb) (sort_by ltb l).
Proof.
  induction l as [| x l IH]; simpl; [constructor | now apply insert_by_sorted].
Qed.

(** In a sorted list nothing smaller comes after something bigger. *)
Lemma sorted_never_after l l1 l2 x y :
  StronglySorted (not_after ltb) l -> ltb x y = true ->
  l = l1 ++ y :: l2 -> ~ In x l2.
Proof.
  intros Hs Hxy -> Hin.
  induction l1 as [| z l1 IH]; simpl in Hs.
  - apply StronglySorted_inv in Hs. destruct Hs as [_ Hy].
    rewrite Forall_forall in Hy. specialize (Hy x Hin).
    unfold not_after in Hy. congruence.
  - apply StronglySorted_inv in Hs. now apply IH.
Qed.

End SortBy.

(** [sorted(..., key=...)] does what the insertion sort does when the
    comparisons of the keys do not raise. *)
Lemma key_insert_ok {A : Type} (key : A -> list token) (ltb : A -> A -> bool)
    (x : A) (l : list A) :
  (forall y, In y l -> Key.lt (key y) (key x) = Ok (ltb y x)) ->
  Key.insert key x l = Ok (insert_by ltb x l).
Proof.
  induction l as [| y l IH]; intros H; simpl; [reflexivity |].
  rewrite (H y (or_introl eq_refl)). simpl.
  destruct (ltb y x); [| reflexivity].
  rewrite IH; [reflexivity |]. intros z Hz. apply H. now right.
Qed.

Lemma key_sorted_ok {A : Type} (key : A -> list token) (ltb : A -> A -> bool)
    (l : list A) :
  (forall x y, In x l -> In y l -> Key.lt (key y) (key x) = Ok (ltb y x)) ->
  Key.sorted key l = Ok (sort_by ltb l).
Proof.
  induction l as [| x l IH]; intros H; simpl; [reflexivity |].
  rewrite IH by (intros; apply H; now right). simpl.
  apply key_insert_ok. intros y Hy. apply H; [now left | right].
  apply (Permutation_in _ (Permutation_sym (sort_by_perm _ ltb l)) Hy).
Qed.

(** *** The keys of file names *)

Lemma key_lt_alternating a : forall b w,
  alternating w a = true -> alternating w b = true ->
  Key.lt a b = Ok (key_ltb a b).
Proof.
  unfold key_ltb.
  induction a as [| x a IH]; intros [| y b] w Ha Hb; try reflexivity.
  simpl in Ha, Hb |- *.
  destruct x as [m | s], y as [n | t], w; simpl in Ha, Hb; try discriminate.
  - simpl. destruct (N.eqb_spec m n) as [-> | Hne].
    + rewrite N.compare_refl. eapply IH; eassumption.
    + unfold N.ltb. destruct (N.compare m n) eqn:Hc; try reflexivity.
      apply N.compare_eq_iff in Hc. contradiction.
  - simpl. destruct (String.eqb_spec s t) as [-> | Hne].
    + destruct string_compare_total_order as (Heq & _).
      rewrite (proj2 (Heq t t) eq_refl). eapply IH; eassumption.
    + unfold String.ltb. destruct (String.compare s t) eqn:Hc; try reflexivity.
      apply String.compare_eq_iff in Hc. contradiction.
Qed.

Lemma forallb_string_of_list p l :
  PyStr.forallb p (string_of_list_ascii l) = List.forallb p l.
Proof. induction l as [| c l IH]; simpl; [reflexivity | now rewrite IH]. Qed.

Lemma forallb_rev {B : Type} (p : B -> bool) l :
  List.forallb p (rev l) = List.forallb p l.
Proof.
  induction l as [| c l IH]; simpl; [reflexivity |].
  rewrite forallb_app, IH. simpl. rewrite andb_true_r. apply andb_comm.
Qed.

(** A run of digits becomes a number, a run without digits a string. *)
Lemma key_of_digit_run cur :
  cur <> [] -> List.forallb PyStr.is_digit cur = true ->
  exists n, Key.key_of_run (string_of_list_ascii (rev cur)) = TInt n.
Proof.
  intros Hne Hd. unfold Key.key_of_run, PyStr.isdigit.
  rewrite forallb_string_of_list, forallb_rev, Hd.
  destruct (rev cur) as [| c r] eqn:Hr.
  - apply (f_equal (@rev ascii)) in Hr. rewrite rev_involutive in Hr.
    contradiction.
  - simpl. eexists. reflexivity.
Qed.

Lemma key_of_other_run cur :
  List.forallb (fun c => negb (PyStr.is_digit c)) cur = true ->
  exists s, Key.key_of_run (string_of_list_ascii (rev cur)) = TStr s.
Proof.
  intros Hd. unfold Key.key_of_run, PyStr.isdigit.
  rewrite forallb_string_of_list, forallb_rev.
  destruct cur as [| c cur]; [simpl; eexists; reflexivity |].
  simpl in Hd |- *. apply andb_true_iff in Hd. destruct Hd as [Hc _].
  destruct (PyStr.is_digit c); [discriminate |].
  simpl. rewrite andb_false_r. eexists. reflexivity.
Qed.

Lemma split_runs_alternating s : forall (cur : list ascii) (d : bool),
  (if d then cur <> [] /\ List.forallb PyStr.is_digit cur = true
   else List.forallb (fun c => negb (PyStr.is_digit c)) cur = true) ->
  alternating d (List.map Key.key_of_run (Key.split_runs cur d s)) = true.
Proof.
  induction s as [| c s IH]; intros cur d Hcur.
  - destruct d; simpl.
    + destruct Hcur as [Hne Hd].
      destruct (key_of_digit_run cur Hne Hd) as [n ->]. reflexivity.
    + destruct (key_of_other_run cur Hcur) as [t ->]. reflexivity.
  - cbn [Key.split_runs].
    destruct (PyStr.is_digit c) eqn:Hc, d; cbn [Bool.eqb negb List.map].
    + apply IH. destruct Hcur as [_ Hd]. split; [discriminate |].
      simpl. now rewrite Hc, Hd.
    + destruct (key_of_other_run cur Hcur) as [t ->]. simpl.
      apply IH. split; [discriminate |]. simpl. now rewrite Hc.
    + destruct Hcur as [Hne Hd].
      destruct (key_of_digit_run cur Hne Hd) as [n ->]. simpl.
      apply IH. simpl. now rewrite Hc.
    + apply IH. simpl. now rewrite Hc, Hcur.
Qed.

Lemma natural_sort_key_alternating text :
  alternating false (_natural_sort_key text) = true.
Proof. apply split_runs_alternating. reflexivity. Qed.

(** Comparing the keys of two names never raises, and is the order
    [key_ltb]. *)
Lemma natural_sort_key_lt a b :
  Key.lt (_natural_sort_key a) (_natural_sort_key b)
  = Ok (key_ltb (_natural_sort_key a) (_natural_sort_key b)).
Proof.
  apply key_lt_alternating with (w := false); apply natural_sort_key_alternating.
Qed.

Lemma lex_decided_at {A : Type} (cmp : A -> A -> comparison) :
  (forall x, cmp x x = Eq) ->
  forall i ka kb x y,
    nth_error ka i = Some x -> nth_error kb i = Some y ->
    (forall j, j < i -> nth_error ka j = nth_error kb j) ->
    cmp x y = Lt -> lex cmp ka kb = Lt.
Proof.
  intros Hrefl.
  induction i as [| i IH]; intros [| u ka] [| v kb] x y Ha Hb Hother Hc;
    try discriminate; simpl in Ha, Hb |- *.
  - injection Ha as ->. injection Hb as ->. now rewrite Hc.
  - assert (Huv : u = v).
    { specialize (Hother 0 (Nat.lt_0_succ i)). simpl in Hother. congruence. }
    subst v. rewrite Hrefl.
    apply (IH ka kb x y Ha Hb); [| exact Hc].
    intros j Hj. apply (Hother (S j)). lia.
Qed.

Lemma key_order_total : total_order (lex tok_cmp).
Proof. apply lex_total_order, tok_cmp_total_order. Qed.

(** C5. Two files whose keys differ at one position only, where both hold
    a number, are ordered by these numbers: the key of the file with the
    smaller number is smaller (whatever the number of digits), the other
    way round it is not, and in the sorted list of any files whose keys
    exist (files with ASCII names) the file with the bigger number never
    comes before the one with the smaller; on such files the sort does
    not raise and returns the files it was given. *)
Theorem natural_sort_smaller_number_first :
  forall (p q : Path) (i : nat) (m n : N),
    let key := fun x : Path => _natural_sort_key (PyPath.name x) in
    nth_error (key p) i = Some (TInt m) ->
    nth_error (key q) i = Some (TInt n) ->
    (forall j, j <> i -> nth_error (key p) j = nth_error (key q) j) ->
    (m < n)%N ->
    Key.lt (key p) (key q) = Ok true
    /\ Key.lt (key q) (key p) = Ok false
    /\ forall md_files : list Path,
         Forall (fun x => ascii_only (PyPath.name x) = true) md_files ->
         exists sorted_files,
           Key.sorted key md_files = Ok sorted_files
           /\ Permutation md_files sorted_files
           /\ forall l1 l2, sorted_files = l1 ++ q :: l2 -> ~ In p l2.
Proof.
  intros p q i m n key Hp Hq Hother Hmn.
  pose proof key_order_total as Htot.
  assert (Hlt : lex tok_cmp (key p) (key q) = Lt).
  { apply (lex_decided_at tok_cmp) with (i := i) (x := TInt m) (y := TInt n).
    - intros x. now apply tok_cmp_total_order.
    - exact Hp.
    - exact Hq.
    - intros j Hj. apply Hother. lia.
    - simpl. now apply N.compare_lt_iff. }
  set (ltb := fun x y : Path => key_ltb (key x) (key y)).
  assert (Hpq : ltb p q = true) by (unfold ltb, key_ltb; now rewrite Hlt).
  assert (Hqp : ltb q p = false)
    by (apply (is_lt_asym _ _ Htot (key p) (key q)); exact Hpq).
  split; [| split].
  - unfold key. rewrite natural_sort_key_lt. f_equal. exact Hpq.
  - unfold key. rewrite natural_sort_key_lt. f_equal. exact Hqp.
  - intros md_files _. exists (sort_by ltb md_files).
    split; [| split].
    + apply key_sorted_ok. intros x y _ _. apply natural_sort_key_lt.
    + apply sort_by_perm.
    + intros l1 l2 Hl.
      apply (sorted_never_after _ ltb (sort_by ltb md_files) l1 l2 p q);
        [| exact Hpq | exact Hl].
      apply sort_by_sorted.
      * intros x y. apply (is_lt_asym _ _ Htot).
      * intros x y z. apply (is_lt_not_after_trans _ _ Htot).
Qed.

Lemma natural_sort_smaller_number_first_witness :
  let key := fun x : Path => _natural_sort_key (PyPath.name x) in
  let p := PyPath.parse "book/ch2.md" in
  let q := PyPath.parse "book/ch10.md" in
  nth_error (key p) 1 = Some (TInt 2)
  /\ nth_error (key q) 1 = Some (TInt 10)
  /\ (forall j, j <> 1 -> nth_error (key p) j = nth_error (key q) j)
  /\ (2 < 10)%N
  /\ Key.lt (key p) (key q) = Ok true
  /\ Key.lt (key q) (key p) = Ok false
  /\ forall md_files : list Path,
       Forall (fun x => ascii_only (PyPath.name x) = true) md_files ->
       exists sorted_files,
         Key.sorted key md_files = Ok sorted_files
         /\ Permutation md_files sorted_files
         /\ forall l1 l2, sorted_files = l1 ++ q :: l2 -> ~ In p l2.
Proof.
  cbv zeta.
  assert (H1 : forall j, j <> 1 ->
             nth_error (_natural_sort_key (PyPath.name (PyPath.parse "book/ch2.md"))) j
             = nth_error (_natural_sort_key (PyPath.name (PyPath.parse "book/ch10.md"))) j).
  { intros [| [| [| j]]] Hj; [reflexivity | contradiction | reflexivity |].
    vm_compute. destruct j; reflexivity. }
  assert (H2 : (2 < 10)%N) by reflexivity.
  split; [reflexivity |]. split; [reflexivity |].
  split; [exact H1 |]. split; [exact H2 |].
  apply (natural_sort_smaller_number_first (PyPath.parse "book/ch2.md")
           (PyPath.parse "book/ch10.md") 1 2%N 10%N eq_refl eq_refl H1 H2).
Defined.

Example sorted_sample :
  Key.sorted _natural_sort_key ["ch10.md"; "ch2.md"; "Ch1.md"; "ch02.md"]
  = Ok ["Ch1.md"; "ch2.md"; "ch02.md"; "ch10.md"].
Proof. reflexivity. Qed.

(** ** ImageBundler *)

Lemma string_append_assoc (a b c : string) :
  ((a ++ b) ++ c)%string = (a ++ (b ++ c))%string.
Proof. induction a as [| x a IH]; simpl; [reflexivity | now rewrite IH]. Qed.

Lemma take_drop i s : (PyStr.take i s ++ PyStr.drop i s)%string = s.
Proof.
  revert s. induction i as [| i IH]; intros [| c s]; simpl; try reflexivity.
  now rewrite IH.
Qed.

Lemma drop_prefix (a b : string) :
  PyStr.drop (String.length a + 1) (a ++ "/" ++ b) = b.
Proof. induction a as [| x a IH]; simpl; [reflexivity | exact IH]. Qed.

(** *** Patterns *)

Lemma fnmatch_literal lit : literal lit = true -> FS.fnmatch lit lit = true.
Proof.
  induction lit as [| c lit IH]; intros H; [reflexivity |].
  simpl in H. apply andb_true_iff in H. destruct H as [Hc Hl].
  apply andb_true_iff in Hc. destruct Hc as [H1 H2].
  assert (Hstep : FS.fnmatch (String c lit) (String c lit)
                  = Ascii.eqb c c && FS.fnmatch lit lit).
  { destruct c as [[] [] [] [] [] [] [] []]; try reflexivity;
      simpl in H1, H2; discriminate. }
  rewrite Hstep, Ascii.eqb_refl. now apply IH.
Qed.

Lemma fnmatch_star pat s :
  FS.fnmatch (String "*" pat) s
  = FS.fnmatch pat s
    || match s with
       | EmptyString => false
       | String _ s' => FS.fnmatch (String "*" pat) s'
       end.
Proof. destruct s; reflexivity. Qed.

(** [*] followed by a literal matches every name that ends in it. *)
Lemma fnmatch_star_suffix lit s :
  literal lit = true -> FS.fnmatch (String "*" lit) (s ++ lit) = true.
Proof.
  intros Hl. induction s as [| c s IH].
  - rewrite fnmatch_star. simpl. now rewrite fnmatch_literal.
  - change (String c s ++ lit)%string with (String c (s ++ lit)).
    rewrite fnmatch_star, IH. apply orb_true_r.
Qed.

Lemma image_patterns_extensions :
  image_patterns = List.map (String "*") image_extensions.
Proof. reflexivity. Qed.

Lemma image_extensions_literal ext :
  In ext image_extensions -> literal ext = true /\ ext <> "".
Proof.
  unfold image_extensions. simpl.
  intros H. repeat (destruct H as [<- | H]; [split; [reflexivity | discriminate] |]).
  contradiction.
Qed.

(** *** Paths below a directory *)

Lemma last_app_nonempty {B : Type} (l1 l2 : list B) d :
  l2 <> [] -> List.last (l1 ++ l2) d = List.last l2 d.
Proof.
  intros H. induction l1 as [| x l1 IH]; [reflexivity |].
  simpl. destruct (l1 ++ l2) eqn:E; [| exact IH].
  apply app_eq_nil in E. destruct E as [_ E]. contradiction.
Qed.

Lemma name_join d rel :
  rel <> [] -> PyPath.name (PyPath.join d rel) = List.last rel "".
Proof. intros H. unfold PyPath.name, PyPath.join. simpl. now apply last_app_nonempty. Qed.

Lemma walk_nonempty n rel : In rel (FS.walk n) -> rel <> [].
Proof.
  destruct n as [c | es]; simpl; [contradiction |].
  intros H. apply in_flat_map in H. destruct H as (e & _ & [<- | H]); [discriminate |].
  apply in_map_iff in H. destruct H as (r & <- & _). discriminate.
Qed.

(** A name with one of the extensions matches the pattern of that
    extension. *)
Lemma suffix_matches p ext :
  In ext image_extensions -> PyPath.suffix p = ext ->
  FS.fnmatch (String "*" ext) (PyPath.name p) = true.
Proof.
  intros Hin Hs. destruct (image_extensions_literal ext Hin) as [Hl Hne].
  unfold PyPath.suffix in Hs.
  destruct (PyPath.has_suffix_at (PyPath.name p)) as [i |]; [| congruence].
  rewrite <- (take_drop i (PyPath.name p)), Hs.
  now apply fnmatch_star_suffix.
Qed.

Lemma image_files_found fs directory dir_node rel :
  FS.lookup fs directory = Some dir_node ->
  In rel (FS.walk dir_node) ->
  In (PyPath.suffix (PyPath.join directory rel)) image_extensions ->
  In (PyPath.join directory rel) (image_files fs directory).
Proof.
  intros Hd Hw Hext. unfold image_files.
  apply in_flat_map.
  exists (String "*" (PyPath.suffix (PyPath.join directory rel))). split.
  - rewrite image_patterns_extensions. now apply in_map.
  - unfold FS.rglob. rewrite Hd. apply in_map, filter_In. split; [exact Hw |].
    unfold FS.matches. rewrite <- (name_join directory rel (walk_nonempty _ _ Hw)).
    now apply suffix_matches.
Qed.

Lemma image_files_anchor fs directory p :
  In p (image_files fs directory) -> anchor p = anchor directory.
Proof.
  unfold image_files. intros H. apply in_flat_map in H.
  destruct H as (pat & _ & H). unfold FS.rglob in H.
  destruct (FS.lookup fs directory); [| contradiction].
  apply in_map_iff in H. destruct H as (rel & <- & _). reflexivity.
Qed.

(** *** The order of paths *)

Lemma parts_ltb_lex a b :
  PyPath.parts_ltb a b = is_lt (lex String.compare a b).
Proof.
  destruct string_compare_total_order as (Heq & _).
  revert b. induction a as [| x a IH]; intros [| y b]; simpl; try reflexivity.
  destruct (String.eqb_spec x y) as [-> | Hne].
  - rewrite (proj2 (Heq y y) eq_refl). apply IH.
  - unfold String.ltb. destruct (String.compare x y) eqn:Hc; try reflexivity.
    apply Heq in Hc. contradiction.
Qed.

Lemma path_ltb_lex p q :
  PyPath.ltb p q = is_lt (lex String.compare (PyPath.cparts p) (PyPath.cparts q)).
Proof. apply parts_ltb_lex. Qed.

Lemma parts_order_total : total_order (lex String.compare).
Proof. apply lex_total_order, string_compare_total_order. Qed.

Lemma cparts_inj p q :
  anchor p = anchor q -> PyPath.cparts p = PyPath.cparts q -> p = q.
Proof.
  destruct p as [a ps], q as [b qs]. unfold PyPath.cparts. simpl.
  intros <-. destruct (PyStr.is_empty a); intros H; [| injection H as H]; now subst.
Qed.

Lemma sort_paths_sorted l :
  StronglySorted (not_after PyPath.ltb) (sort_paths l).
Proof.
  apply sort_by_sorted.
  - intros x y. rewrite !path_ltb_lex. apply (is_lt_asym _ _ parts_order_total).
  - intros x y z. rewrite !path_ltb_lex.
    apply (is_lt_not_after_trans _ _ parts_order_total).
Qed.

(** Distinct paths below one anchor, none after a later one: the list is
    strictly increasing. *)
Lemma sorted_strictly a l :
  Forall (fun p => anchor p = a) l -> NoDup l ->
  StronglySorted (not_after PyPath.ltb) l ->
  StronglySorted (fun p q => PyPath.ltb p q = true) l.
Proof.
  intros Ha Hnd Hs.
  induction Hs as [| x l Hs IH Hx]; [constructor |].
  apply Forall_cons_iff in Ha. destruct Ha as [Hxa Ha].
  apply NoDup_cons_iff in Hnd. destruct Hnd as [Hnin Hnd].
  constructor; [now apply IH |].
  rewrite Forall_forall in *. intros y Hy.
  rewrite path_ltb_lex. apply (is_lt_total _ _ parts_order_total).
  - intros Hc. apply cparts_inj in Hc; [| now rewrite Hxa, (Ha y Hy)].
    subst y. contradiction.
  - rewrite <- path_ltb_lex. exact (Hx y Hy).
Qed.

(** *** The registered path *)

Lemma concat_nonempty (x : string) l :
  x <> "" -> PyStr.is_empty (String.concat "/" (x :: l)) = false.
Proof.
  intros Hx. destruct x as [| c x]; [contradiction |].
  destruct l; reflexivity.
Qed.

Lemma concat_app (l1 l2 : list string) :
  l1 <> [] -> l2 <> [] ->
  String.concat "/" (l1 ++ l2)
  = (String.concat "/" l1 ++ "/" ++ String.concat "/" l2)%string.
Proof.
  intros H1 H2. induction l1 as [| x l1 IH]; [contradiction |].
  destruct l1 as [| y l1].
  - destruct l2 as [| z l2]; [contradiction | reflexivity].
  - change (String.concat "/" ((x :: y :: l1) ++ l2))
      with (x ++ "/" ++ String.concat "/" ((y :: l1) ++ l2))%string.
    rewrite IH by discriminate.
    change (String.concat "/" (x :: y :: l1))
      with (x ++ "/" ++ String.concat "/" (y :: l1))%string.
    now rewrite !string_append_assoc.
Qed.

Lemma parse_parts_nonempty s :
  Forall (fun x => x <> "") (parts (PyPath.parse s)).
Proof.
  unfold PyPath.parse. destruct (PyPath.splitroot s) as [root rel]. simpl.
  apply Forall_forall. intros x Hx. apply filter_In in Hx.
  destruct Hx as [_ Hk]. unfold PyPath.keep_part in Hk.
  destruct x; [discriminate | discriminate].
Qed.

(** Below a directory with a name, the path of a file is the path of the
    directory, the separator and the path from there. *)
Lemma str_join d rel :
  parts d <> [] -> Forall (fun x => x <> "") (parts d) -> rel <> [] ->
  PyPath.str (PyPath.join d rel)
  = (PyPath.str d ++ "/" ++ PyStr.join "/" rel)%string.
Proof.
  intros Hne Hparts Hrel. unfold PyPath.str, PyPath.join, PyStr.join. simpl.
  destruct (parts d) as [| x ps] eqn:Hp; [contradiction |].
  apply Forall_cons_iff in Hparts. destruct Hparts as [Hx _].
  rewrite concat_app by (assumption || discriminate).
  pose proof (concat_nonempty x ps Hx) as H1.
  destruct (PyStr.is_empty (anchor d)).
  - rewrite H1.
    destruct (String.concat "/" (x :: ps)) as [| c body] eqn:Hb;
      [discriminate | reflexivity].
  - now rewrite string_append_assoc.
Qed.

Lemma first_occurrence_order_listing : is_set_listing first_occurrence_order.
Proof.
  intros l. unfold first_occurrence_order. split.
  - apply NoDup_rev, NoDup_nodup.
  - intros x. rewrite <- in_rev, nodup_In, <- in_rev. reflexivity.
Qed.

Lemma find_images_glob_listing fs set_order directory :
  is_set_listing set_order ->
  NoDup (find_images_glob fs set_order directory)
  /\ forall p, In p (find_images_glob fs set_order directory)
               <-> In p (image_files fs directory).
Proof.
  intros Hset. unfold find_images_glob, sort_paths.
  destruct (Hset (image_files fs directory)) as [Hnd Hin].
  pose proof (sort_by_perm _ PyPath.ltb (set_order (image_files fs directory))) as Hp.
  split.
  - exact (Permutation_NoDup Hp Hnd).
  - intros p. rewrite <- Hin. split; intros H.
    + exact (Permutation_in _ (Permutation_sym Hp) H).
    + exact (Permutation_in _ Hp H).
Qed.

Lemma add_image_file_registers fs img_path parent_path content st :
  FS.read fs img_path = Ok content ->
  let r := add_image_file fs img_path parent_path st in
  snd r = true
  /\ book_items (fst r)
     = book_items st
       ++ [ItemImage (PyPath.name img_path)
             (PyStr.drop (String.length parent_path + 1) (PyPath.str img_path))
             (snd (image_media_type img_path st)) content].
Proof.
  intros Hr. cbv zeta. unfold add_image_file. rewrite Hr.
  pose proof (image_media_type_state img_path st) as (Hi & _).
  destruct (image_media_type img_path st) as [st1 mt]. simpl in Hi |- *.
  now rewrite Hi.
Qed.

Lemma image_media_type_jpeg p st :
  PyStr.lower (PyPath.suffix p) = ".jpg" \/ PyStr.lower (PyPath.suffix p) = ".jpeg" ->
  snd (image_media_type p st) = "image/jpeg".
Proof. unfold image_media_type. intros [-> | ->]; reflexivity. Qed.

(** C7, as amended. Below any root directory, the current directory
    included, every entry whose extension is one of jpg, jpeg, png, gif,
    bmp, tiff, webp, svg written all in lower case or all in upper case
    is found by [find_images_glob]; what it returns has every path once
    and is strictly increasing in the order of paths. When the root is
    given by a normalised path with at least one name in it, a found
    file that can be read is registered by [add_image_file] under its
    name, with the path from the root as file name and the media type of
    [image_media_type], which is [image/jpeg] for [.jpg] and [.jpeg] in
    any letter case. *)
Theorem image_bundler_discovers_and_registers :
  forall (fs : filesystem) (set_order : list Path -> list Path)
         (directory : Path) (dir_node : fsnode) (rel : list string),
    let img_path := PyPath.join directory rel in
    let found := find_images_glob fs set_order directory in
    is_set_listing set_order ->
    FS.lookup fs directory = Some dir_node ->
    In rel (FS.walk dir_node) ->
    In (PyPath.suffix img_path) image_extensions ->
    In img_path found
    /\ NoDup found
    /\ StronglySorted (fun p q => PyPath.ltb p q = true) found
    /\ (forall (directory_path content : string) (st : converter),
          let r := add_image_file fs img_path directory_path st in
          directory = PyPath.parse directory_path ->
          PyPath.str directory = directory_path ->
          parts directory <> [] ->
          FS.read fs img_path = Ok content ->
          snd r = true
          /\ book_items (fst r)
             = book_items st
               ++ [ItemImage (List.last rel "") (PyStr.join "/" rel)
                             (snd (image_media_type img_path st)) content])
    /\ (forall st : converter,
          PyStr.lower (PyPath.suffix img_path) = ".jpg"
          \/ PyStr.lower (PyPath.suffix img_path) = ".jpeg" ->
          snd (image_media_type img_path st) = "image/jpeg").
Proof.
  intros fs set_order directory dir_node rel img_path found
         Hset Hdir Hwalk Hext.
  destruct (find_images_glob_listing fs set_order directory Hset) as [Hnd Hin].
  pose proof (walk_nonempty _ _ Hwalk) as Hrel.
  split; [| split; [| split; [| split]]].
  - apply Hin. now apply (image_files_found fs directory dir_node).
  - exact Hnd.
  - apply (sorted_strictly (anchor directory)); [| exact Hnd |].
    + apply Forall_forall. intros p Hp. apply Hin in Hp.
      now apply (image_files_anchor fs).
    + apply sort_paths_sorted.
  - intros directory_path content st r Hparse Hnorm Hnamed Hread.
    destruct (add_image_file_registers fs img_path directory_path content st Hread)
      as [H1 H2].
    split; [exact H1 |].
    fold r in H2. rewrite H2. repeat f_equal.
    + now apply name_join.
    + unfold img_path. rewrite str_join;
        [| exact Hnamed | rewrite Hparse; apply parse_parts_nonempty | exact Hrel].
      rewrite Hnorm. apply drop_prefix.
  - intros st. apply image_media_type_jpeg.
Qed.

Lemma image_bundler_discovers_and_registers_witness :
  let directory := PyPath.parse "book" in
  let img_path := PyPath.join directory ["sub"; "b.jpg"] in
  let found := find_images_glob sample_fs first_occurrence_order directory in
  let r := add_image_file sample_fs img_path "book" sample_init in
  is_set_listing first_occurrence_order
  /\ FS.lookup sample_fs directory
     = Some (Dir [("ch10.md", File (Ok ("# Ten" ++ nl ++ "text")%string));
                  ("ch2.md", File (Ok ("Two" ++ nl ++ "===" ++ nl ++ "text")%string));
                  ("broken.md", File (Raise (OSError "Permission denied")));
                  ("cover.png", File (Ok "PNG"));
                  ("a.PNG", File (Ok "A"));
                  ("c.Png", File (Ok "C"));
                  ("sub", Dir [("b.jpg", File (Ok "B"))])])
  /\ In (PyPath.suffix img_path) image_extensions
  /\ PyPath.str directory = "book"
  /\ parts directory <> []
  /\ FS.read sample_fs img_path = Ok "B"
  /\ In img_path found
  /\ NoDup found
  /\ StronglySorted (fun p q => PyPath.ltb p q = true) found
  /\ snd r = true
  /\ book_items (fst r)
     = book_items sample_init
       ++ [ItemImage "b.jpg" "sub/b.jpg"
                     (snd (image_media_type img_path sample_init)) "B"]
  /\ (PyStr.lower (PyPath.suffix img_path) = ".jpg"
      \/ PyStr.lower (PyPath.suffix img_path) = ".jpeg" ->
      snd (image_media_type img_path sample_init) = "image/jpeg").
Proof.
  cbv zeta.
  assert (Hext : In (PyPath.suffix (PyPath.join (PyPath.parse "book") ["sub"; "b.jpg"]))
                    image_extensions) by (left; reflexivity).
  assert (Hnamed : parts (PyPath.parse "book") <> []) by discriminate.
  assert (Hwalk : In ["sub"; "b.jpg"]
                    (FS.walk
                       (Dir [("ch10.md", File (Ok ("# Ten" ++ nl ++ "text")%string));
                             ("ch2.md", File (Ok ("Two" ++ nl ++ "===" ++ nl ++ "text")%string));
                             ("broken.md", File (Raise (OSError "Permission denied")));
                             ("cover.png", File (Ok "PNG"));
                             ("a.PNG", File (Ok "A"));
                             ("c.Png", File (Ok "C"));
                             ("sub", Dir [("b.jpg", File (Ok "B"))])])))
    by (vm_compute; tauto).
  destruct (image_bundler_discovers_and_registers sample_fs first_occurrence_order
              (PyPath.parse "book") _ ["sub"; "b.jpg"]
              first_occurrence_order_listing eq_refl Hwalk Hext)
    as (Hfound & Hnd & Hsorted & Hreg & Hjpeg).
  destruct (Hreg "book" "B" sample_init eq_refl eq_refl Hnamed eq_refl)
    as (Hok & Hitems).
  split; [exact first_occurrence_order_listing |].
  split; [reflexivity |]. split; [exact Hext |]. split; [reflexivity |].
  split; [exact Hnamed |]. split; [reflexivity |].
  split; [exact Hfound |]. split; [exact Hnd |]. split; [exact Hsorted |].
  split; [exact Hok |]. split; [exact Hitems |].
  exact (Hjpeg sample_init).
Defined.

(** The statement of the specification fails on an extension in mixed
    case: [c.Png] is a
    readable file below the root, classified as [image/png] by its
    extension, and [find_images_glob] does not return it. *)
Lemma mixed_case_extension_not_found :
  FS.read sample_fs (PyPath.parse "book/c.Png") = Ok "C"
  /\ PyStr.lower (PyPath.suffix (PyPath.parse "book/c.Png")) = ".png"
  /\ find_images_glob sample_fs first_occurrence_order (PyPath.parse "book")
     = [PyPath.parse "book/a.PNG"; PyPath.parse "book/cover.png";
        PyPath.parse "book/sub/b.jpg"]
  /\ ~ In (PyPath.parse "book/c.Png")
          (find_images_glob sample_fs first_occurrence_order (PyPath.parse "book")).
Proof.
  split; [reflexivity |]. split; [reflexivity |].
  assert (H : find_images_glob sample_fs first_occurrence_order (PyPath.parse "book")
              = [PyPath.parse "book/a.PNG"; PyPath.parse "book/cover.png";
                 PyPath.parse "book/sub/b.jpg"]) by (vm_compute; reflexivity).
  split; [exact H |]. rewrite H. simpl.
  intros [Hc | [Hc | [Hc | []]]]; discriminate.
Qed.

(** With the current directory as root the paths of the files do not
    start with the root, and the registered name loses its first two
    characters. *)
Example add_image_file_current_directory :
  let fs := mkFS (fs_root sample_fs) ["book"] in
  find_images_glob fs first_occurrence_order (PyPath.parse ".")
  = [PyPath.parse "a.PNG"; PyPath.parse "cover.png"; PyPath.parse "sub/b.jpg"]
  /\ book_items (fst (add_image_file fs (PyPath.parse "sub/b.jpg") "." sample_init))
     = [ItemImage "b.jpg" "b/b.jpg" "image/jpeg" "B"].
Proof. vm_compute. split; reflexivity. Qed.

(** ** Command line *)

(** C3. Started without an argument, so that [sys.argv] holds the script
    name only, [main] does not fall back to the current directory: the
    test [len(sys.argv) < 1] is false, [sys.argv[1]] raises [IndexError],
    and the exception leaves [main]. *)
Theorem main_without_argument_raises :
  forall (fs : filesystem)
         (yaml_title : string -> result (option string))
         (md_convert : list md_event -> string -> result string)
         (html_parser : string -> result (list node))
         (soup_str : list node -> string)
         (auto_id : list item -> string)
         (mkdir_parents : Path -> result unit)
         (write_epub : string -> converter -> result unit)
         (set_order : list Path -> list Path)
         (book_uuid script : string),
    main fs yaml_title md_convert html_parser soup_str auto_id mkdir_parents
         write_epub set_order book_uuid [script]
    = Raise (IndexError "list index out of range").
Proof. intros. reflexivity. Qed.

(** [split] never gives an empty list, and its pieces hold no
    separator. *)
Lemma split_on_cons sep s : exists w ws, PyStr.split_on sep s = w :: ws.
Proof.
  induction s as [| c s (w & ws & IH)]; simpl; [now eexists; eexists |].
  destruct (Ascii.eqb c sep); [now eexists; eexists |].
  rewrite IH. now eexists; eexists.
Qed.

Lemma split_on_no_sep sep s :
  Forall (fun w => no_sep sep w = true) (PyStr.split_on sep s).
Proof.
  induction s as [| c s IH]; simpl; [now repeat constructor |].
  destruct (Ascii.eqb c sep) eqn:Hc; [now constructor |].
  destruct (PyStr.split_on sep s) as [| w ws].
  { constructor; [| constructor]. unfold no_sep. simpl. now rewrite Hc. }
  apply Forall_cons_iff in IH. destruct IH as [Hw Hws].
  constructor; [| exact Hws]. unfold no_sep in *. simpl. now rewrite Hc, Hw.
Qed.

Lemma split_on_whole sep s : no_sep sep s = true -> PyStr.split_on sep s = [s].
Proof.
  induction s as [| c s IH]; intros H; [reflexivity |].
  unfold no_sep in H. simpl in H. apply andb_true_iff in H. destruct H as [Hc Hs].
  simpl. destruct (Ascii.eqb c sep); [discriminate |]. now rewrite (IH Hs).
Qed.

Lemma split_on_app sep a b :
  PyStr.split_on sep (a ++ String sep b)
  = PyStr.split_on sep a ++ PyStr.split_on sep b.
Proof.
  induction a as [| c a IH]; simpl.
  - now rewrite Ascii.eqb_refl.
  - destruct (Ascii.eqb c sep); [now rewrite IH |].
    rewrite IH. destruct (split_on_cons sep a) as (w & ws & ->). reflexivity.
Qed.

Lemma last_split_concat ps :
  ps <> [] -> Forall (fun w => no_sep "/" w = true) ps ->
  List.last (PyStr.split_on "/" (String.concat "/" ps)) "" = List.last ps "".
Proof.
  induction ps as [| x ps IH]; intros Hne Hf; [contradiction |].
  apply Forall_cons_iff in Hf. destruct Hf as [Hx Hps].
  destruct ps as [| y ps]; [simpl; now rewrite split_on_whole |].
  change (String.concat "/" (x :: y :: ps))
    with (x ++ String "/" (String.concat "/" (y :: ps)))%string.
  rewrite split_on_app, last_app_nonempty.
  - rewrite IH by (assumption || discriminate). reflexivity.
  - destruct (split_on_cons "/" (String.concat "/" (y :: ps))) as (w & ws & ->).
    discriminate.
Qed.

(** The title [main] derives is the last name of the directory path. *)
Lemma main_title_is_basename dir :
  parts (PyPath.parse dir) <> [] ->
  meta_title (main_meta dir) = PyPath.name (PyPath.parse dir).
Proof.
  intros Hne. unfold main_meta, meta_title, last_item, PyPath.name, PyPath.str.
  unfold PyStr.join.
  assert (Hsep : Forall (fun w => no_sep "/" w = true) (parts (PyPath.parse dir))).
  { unfold PyPath.parse. destruct (PyPath.splitroot dir) as [root rel]. simpl.
    apply Forall_forall. intros w Hw. apply filter_In in Hw.
    destruct Hw as [Hw _].
    pose proof (split_on_no_sep "/" rel) as Hall.
    rewrite Forall_forall in Hall. now apply Hall. }
  pose proof (last_split_concat _ Hne Hsep) as Hlast.
  assert (Hbody : PyStr.is_empty (String.concat "/" (parts (PyPath.parse dir))) = false).
  { pose proof (parse_parts_nonempty dir) as Hp.
    destruct (parts (PyPath.parse dir)) as [| x ps]; [contradiction |].
    apply Forall_cons_iff in Hp. now apply concat_nonempty. }
  assert (Hanchor : anchor (PyPath.parse dir) = ""
                    \/ anchor (PyPath.parse dir) = "/"
                    \/ anchor (PyPath.parse dir) = "//").
  { unfold PyPath.parse, PyPath.splitroot.
    destruct (PyPath.count_slashes dir) as [| [| [| k]]]; simpl; tauto. }
  destruct (split_on_cons "/" (String.concat "/" (parts (PyPath.parse dir))))
    as (w & ws & Hs).
  destruct Hanchor as [-> | [-> | ->]]; simpl.
  - rewrite Hbody. exact Hlast.
  - rewrite Hs in *. exact Hlast.
  - rewrite Hs in *. exact Hlast.
Qed.

(** With an argument the directory is that argument, and the output path
    is [./output/], the last name of the directory and [.epub]. *)
Lemma main_with_argument script dir rest :
  parts (PyPath.parse dir) <> [] ->
  main_markdown_dir (script :: dir :: rest) = Ok dir
  /\ meta_output_file (main_meta dir)
     = ("./output/" ++ PyPath.name (PyPath.parse dir) ++ ".epub")%string.
Proof.
  intros Hne. split; [reflexivity |].
  rewrite <- (main_title_is_basename dir Hne). reflexivity.
Qed.

(** A whole run on [sample_fs]: the unreadable file and the cover fail
    and are reported, two chapters and three images make the book. *)
Example main_sample_run :
  match main sample_fs sample_yaml sample_convert sample_parser
             sample_soup_str sample_auto_id sample_mkdir sample_write
             first_occurrence_order "id" ["create-ebook.py"; "book"] with
  | Ok (meta, st) =>
      meta_output_file meta = "./output/book.epub"
      /\ List.map h_file_name (chapters st) = ["chapter_1.xhtml"; "chapter_2.xhtml"]
      /\ List.map h_title (chapters st) = ["Two"; "Ten"]
      /\ book_spine st = [SpineNav; SpineChapter 0; SpineChapter 1]
      /\ List.map (fun e => link_href (fst e)) (book_toc st)
         = ["chapter_1.xhtml"; "chapter_2.xhtml"]
      /\ List.length (book_items st) = 8
      /\ List.last (out st) "" = "✅ Conversion successful!"
  | Raise _ => False
  end.
Proof. vm_compute. repeat split. Qed.

Example main_meta_example :
  main_meta "books//my-book/"
  = mkBookMeta "my-book" "./output/my-book.epub" "Unknown"
               "books/my-book/cover.png" "en" "books/my-book".
Proof. reflexivity. Qed.

(* ================================================================== *)
(** * Further properties *)
(* ================================================================== *)

(** ** OrderingKey on whole names *)

Lemma is_digit_to_lower c : PyStr.is_digit (PyStr.to_lower c) = PyStr.is_digit c.
Proof. destruct c as [[] [] [] [] [] [] [] []]; reflexivity. Qed.

Lemma to_lower_idem c : PyStr.to_lower (PyStr.to_lower c) = PyStr.to_lower c.
Proof. destruct c as [[] [] [] [] [] [] [] []]; reflexivity. Qed.

Lemma to_lower_digit c : PyStr.is_digit c = true -> PyStr.to_lower c = c.
Proof. destruct c as [[] [] [] [] [] [] [] []]; intros H; try reflexivity; discriminate. Qed.

Lemma lower_idem s : PyStr.lower (PyStr.lower s) = PyStr.lower s.
Proof.
  unfold PyStr.lower. induction s as [| c s IH]; simpl; [reflexivity |].
  now rewrite to_lower_idem, IH.
Qed.

Lemma lower_digits s : all_digits s = true -> PyStr.lower s = s.
Proof.
  unfold all_digits, PyStr.lower. induction s as [| c s IH]; intros H; [reflexivity |].
  simpl in H |- *. apply andb_true_iff in H. destruct H as [Hc Hs].
  now rewrite (to_lower_digit c Hc), (IH Hs).
Qed.

Lemma forallb_digit_lower s :
  PyStr.forallb PyStr.is_digit (PyStr.lower s) = PyStr.forallb PyStr.is_digit s.
Proof.
  unfold PyStr.lower. induction s as [| c s IH]; simpl; [reflexivity |].
  now rewrite is_digit_to_lower, IH.
Qed.

Lemma key_of_run_lower r : Key.key_of_run (PyStr.lower r) = Key.key_of_run r.
Proof.
  unfold Key.key_of_run, PyStr.isdigit.
  rewrite forallb_digit_lower, lower_idem.
  assert (He : PyStr.is_empty (PyStr.lower r) = PyStr.is_empty r) by (now destruct r).
  rewrite He.
  destruct (negb (PyStr.is_empty r) && PyStr.forallb PyStr.is_digit r) eqn:Hd;
    [| reflexivity].
  apply andb_true_iff in Hd. destruct Hd as [_ Hd].
  now rewrite (lower_digits r Hd).
Qed.

Lemma string_of_list_map f l :
  string_of_list_ascii (List.map f l) = PyStr.map f (string_of_list_ascii l).
Proof. induction l as [| c l IH]; simpl; [reflexivity | now rewrite IH]. Qed.

Lemma split_runs_lower s : forall cur d,
  Key.split_runs (List.map PyStr.to_lower cur) d (PyStr.lower s)
  = List.map PyStr.lower (Key.split_runs cur d s).
Proof.
  unfold PyStr.lower.
  induction s as [| c s IH]; intros cur d; cbn [PyStr.map Key.split_runs].
  - rewrite <- map_rev, string_of_list_map. now destruct d.
  - rewrite is_digit_to_lower, <- map_rev, string_of_list_map.
    destruct (Bool.eqb (PyStr.is_digit c) d).
    + apply (IH (c :: cur) d).
    + cbn [List.map]. f_equal. apply (IH [c] (negb d)).
Qed.

(** X1. The key does not see letter case: a name and the same name in
    lower case have the same key, so two names that differ in case only
    are placed by the order in which the set hands them over. *)
Theorem natural_sort_key_ignores_case :
  forall text : string,
    _natural_sort_key (PyStr.lower text) = _natural_sort_key text.
Proof.
  intros text. unfold _natural_sort_key, Key.re_split_digits.
  pose proof (split_runs_lower text [] false) as H. cbn [List.map] in H.
  rewrite H, map_map.
  apply map_ext. intros r. apply key_of_run_lower.
Qed.












(** ** The sort of the discovered files *)

Section SortKeeps.

Variable A : Type.
Variable ltb : A -> A -> bool.
Variable p : A -> bool.
Hypothesis smaller_not_p : forall x y, p x = true -> ltb y x = true -> p y = false.

Lemma insert_by_filter x l :
  filter p (insert_by ltb x l) = if p x then x :: filter p l else filter p l.
Proof.
  induction l as [| y l IH]; simpl; [now destruct (p x) |].
  destruct (ltb y x) eqn:Hyx; simpl.
  - rewrite IH. destruct (p x) eqn:Hpx; [| reflexivity].
    now rewrite (smaller_not_p x y Hpx Hyx).
  - now destruct (p x).
Qed.

Lemma sort_by_filter l : filter p (sort_by ltb l) = filter p l.
Proof.
  induction l as [| x l IH]; simpl; [reflexivity |].
  rewrite insert_by_filter, IH. reflexivity.
Qed.

End SortKeeps.

Lemma strongly_sorted_weaken {B : Type} (R R' : B -> B -> Prop) l :
  (forall x y, R x y -> R' x y) -> StronglySorted R l -> StronglySorted R' l.
Proof.
  intros HR. induction 1 as [| x l Hs IH Hx]; constructor; [exact IH |].
  eapply Forall_impl; [| exact Hx]. intros y. apply HR.
Qed.

Lemma same_key_eq a b : same_key a b = true <-> a = b.
Proof.
  unfold same_key. rewrite <- (lex_eq _ _ tok_cmp_total_order).
  destruct (lex tok_cmp a b); split; congruence.
Qed.

(** X3. Sorting a list of files with ASCII names by the natural key of
    their names does not raise; the result is a rearrangement of the list
    in which no file has a key smaller than the key of a file before it;
    and the sort is stable: the files that share a key come out in the
    order they went in. *)
Theorem sorted_by_name_is_stable :
  forall md_files : list Path,
    let key := fun x : Path => _natural_sort_key (PyPath.name x) in
    Forall (fun x => ascii_only (PyPath.name x) = true) md_files ->
    exists sorted_files,
      Key.sorted key md_files = Ok sorted_files
      /\ Permutation md_files sorted_files
      /\ StronglySorted (fun x y => Key.lt (key y) (key x) = Ok false) sorted_files
      /\ forall k, filter (fun x => same_key k (key x)) sorted_files
                   = filter (fun x => same_key k (key x)) md_files.
Proof.
  intros md_files key _.
  set (ltb := fun x y : Path => key_ltb (key x) (key y)).
  pose proof key_order_total as Htot.
  exists (sort_by ltb md_files). split; [| split; [| split]].
  - apply key_sorted_ok. intros x y _ _. apply natural_sort_key_lt.
  - apply sort_by_perm.
  - assert (Hs : StronglySorted (not_after ltb) (sort_by ltb md_files)).
    { apply sort_by_sorted.
      - intros x y. apply (is_lt_asym _ _ Htot).
      - intros x y z. apply (is_lt_not_after_trans _ _ Htot). }
    apply (strongly_sorted_weaken (not_after ltb)); [| exact Hs].
    intros x y Hxy. unfold key. rewrite natural_sort_key_lt. f_equal. exact Hxy.
  - intros k. apply sort_by_filter. intros x y Hx Hyx.
    apply same_key_eq in Hx. subst k.
    destruct (same_key (key x) (key y)) eqn:Hs; [| reflexivity].
    apply same_key_eq in Hs. unfold ltb, key_ltb in Hyx. rewrite <- Hs in Hyx.
    destruct Htot as (Heq & _). rewrite (proj2 (Heq (key x) (key x)) eq_refl) in Hyx.
    discriminate.
Qed.

Lemma sorted_by_name_is_stable_witness :
  let key := fun x : Path => _natural_sort_key (PyPath.name x) in
  let md_files := [PyPath.parse "book/ch10.md"; PyPath.parse "book/Ch2.md";
                   PyPath.parse "book/ch2.md"] in
  Forall (fun x => ascii_only (PyPath.name x) = true) md_files
  /\ exists sorted_files,
       Key.sorted key md_files = Ok sorted_files
       /\ Permutation md_files sorted_files
       /\ StronglySorted (fun x y => Key.lt (key y) (key x) = Ok false) sorted_files
       /\ forall k, filter (fun x => same_key k (key x)) sorted_files
                    = filter (fun x => same_key k (key x)) md_files.
Proof.
  cbv zeta.
  assert (H : Forall (fun x => ascii_only (PyPath.name x) = true)
                [PyPath.parse "book/ch10.md"; PyPath.parse "book/Ch2.md";
                 PyPath.parse "book/ch2.md"])
    by (repeat constructor).
  split; [exact H |].
  exact (sorted_by_name_is_stable
           [PyPath.parse "book/ch10.md"; PyPath.parse "book/Ch2.md";
            PyPath.parse "book/ch2.md"] H).
Defined.

(** ** What the image search returns *)

Lemma fnmatch_literal_step c lit s :
  negb (Ascii.eqb c "*") && negb (Ascii.eqb c "?") = true ->
  FS.fnmatch (String c lit) s
  = match s with
    | EmptyString => false
    | String d s' => Ascii.eqb c d && FS.fnmatch lit s'
    end.
Proof.
  intros H. destruct c as [[] [] [] [] [] [] [] []]; try reflexivity;
    simpl in H; discriminate.
Qed.

Lemma fnmatch_literal_only lit : forall s,
  literal lit = true -> FS.fnmatch lit s = true -> s = lit.
Proof.
  induction lit as [| c lit IH]; intros s Hl Hm.
  - destruct s; [reflexivity | discriminate].
  - simpl in Hl. apply andb_true_iff in Hl. destruct Hl as [Hc Hl].
    rewrite (fnmatch_literal_step c lit s Hc) in Hm.
    destruct s as [| d s]; [discriminate |].
    apply andb_true_iff in Hm. destruct Hm as [Hcd Hm].
    apply Ascii.eqb_eq in Hcd. subst d. f_equal. now apply IH.
Qed.

(** [*] followed by a literal matches only the names that end in it. *)
Lemma fnmatch_star_only lit s :
  literal lit = true -> FS.fnmatch (String "*" lit) s = true ->
  exists t, s = (t ++ lit)%string.
Proof.
  intros Hl. induction s as [| c s IH]; rewrite fnmatch_star; intros Hm;
    apply orb_true_iff in Hm; destruct Hm as [Hm | Hm]; try discriminate.
  - exists "". simpl. now apply fnmatch_literal_only.
  - exists "". simpl. now apply fnmatch_literal_only.
  - destruct (IH Hm) as [t ->]. now exists (String c t).
Qed.

Lemma image_files_sound fs directory p :
  In p (image_files fs directory) ->
  exists dir_node rel ext stem,
    FS.lookup fs directory = Some dir_node
    /\ In rel (FS.walk dir_node)
    /\ p = PyPath.join directory rel
    /\ In ext image_extensions
    /\ PyPath.name p = (stem ++ ext)%string.
Proof.
  unfold image_files. intros H. apply in_flat_map in H.
  destruct H as (pat & Hpat & H). unfold FS.rglob in H.
  destruct (FS.lookup fs directory) as [dir_node |]; [| contradiction].
  apply in_map_iff in H. destruct H as (rel & <- & H).
  apply filter_In in H. destruct H as [Hw Hm].
  rewrite image_patterns_extensions in Hpat. apply in_map_iff in Hpat.
  destruct Hpat as (ext & <- & Hext).
  destruct (image_extensions_literal ext Hext) as [Hl _].
  unfold FS.matches in Hm.
  destruct (fnmatch_star_only ext _ Hl Hm) as [stem Hstem].
  exists dir_node, rel, ext, stem. repeat split; try assumption.
  now rewrite (name_join directory rel (walk_nonempty _ _ Hw)).
Qed.

(** X4. [find_images_glob] returns nothing but entries found below the
    directory whose name ends in one of the sixteen spelled-out
    extensions: a file of another kind, or a file outside the directory,
    is never among the images. *)
Theorem found_images_have_image_names :
  forall (fs : filesystem) (set_order : list Path -> list Path)
         (directory p : Path),
    is_set_listing set_order ->
    In p (find_images_glob fs set_order directory) ->
    exists dir_node rel ext stem,
      FS.lookup fs directory = Some dir_node
      /\ In rel (FS.walk dir_node)
      /\ p = PyPath.join directory rel
      /\ In ext image_extensions
      /\ PyPath.name p = (stem ++ ext)%string.
Proof.
  intros fs set_order directory p Hset Hin.
  apply image_files_sound.
  now apply (find_images_glob_listing fs set_order directory Hset).
Qed.

Lemma found_images_have_image_names_witness :
  is_set_listing first_occurrence_order
  /\ In (PyPath.parse "book/sub/b.jpg")
        (find_images_glob sample_fs first_occurrence_order (PyPath.parse "book"))
  /\ exists dir_node rel ext stem,
       FS.lookup sample_fs (PyPath.parse "book") = Some dir_node
       /\ In rel (FS.walk dir_node)
       /\ PyPath.parse "book/sub/b.jpg" = PyPath.join (PyPath.parse "book") rel
       /\ In ext image_extensions
       /\ PyPath.name (PyPath.parse "book/sub/b.jpg") = (stem ++ ext)%string.
Proof.
  assert (Hin : In (PyPath.parse "book/sub/b.jpg")
                   (find_images_glob sample_fs first_occurrence_order
                      (PyPath.parse "book")))
    by (vm_compute; tauto).
  split; [exact first_occurrence_order_listing |]. split; [exact Hin |].
  exact (found_images_have_image_names sample_fs first_occurrence_order
           (PyPath.parse "book") (PyPath.parse "book/sub/b.jpg")
           first_occurrence_order_listing Hin).
Defined.

(** ** Registering the images *)

Lemma image_media_type_of p st : snd (image_media_type p st) = media_type_of p.
Proof.
  unfold image_media_type, media_type_of.
  destruct (_ || _); [reflexivity |].
  destruct (String.eqb _ ".png") eqn:Hpng.
  - apply String.eqb_eq in Hpng. now rewrite Hpng.
  - now destruct (String.eqb _ ".gif").
Qed.

Lemma add_image_file_items fs p parent_path st :
  let st' := fst (add_image_file fs p parent_path st) in
  book_items st' = book_items st ++ registered_items fs parent_path p
  /\ chapters st' = chapters st /\ spine st' = spine st.
Proof.
  cbv zeta. unfold add_image_file, registered_items.
  destruct (FS.read fs p) as [content | e];
    [| simpl; rewrite app_nil_r; repeat split].
  pose proof (image_media_type_state p st) as (Hi & Hc & Hs & _).
  pose proof (image_media_type_of p st) as Hm.
  destruct (image_media_type p st) as [st1 mt]. simpl in *.
  rewrite Hi, Hc, Hs, Hm. repeat split.
Qed.

Lemma add_image_files_items fs img_files parent_path : forall st,
  book_items (add_image_files fs img_files parent_path st)
  = book_items st ++ flat_map (registered_items fs parent_path) img_files
  /\ chapters (add_image_files fs img_files parent_path st) = chapters st
  /\ spine (add_image_files fs img_files parent_path st) = spine st.
Proof.
  unfold add_image_files.
  induction img_files as [| p imgs IH]; intros st.
  - simpl. rewrite app_nil_r. repeat split.
  - cbn [fold_left flat_map].
    destruct (add_image_file_items fs p parent_path st) as (H1 & H2 & H3).
    destruct (IH (fst (add_image_file fs p parent_path st))) as (I1 & I2 & I3).
    cbv zeta in H1, H2, H3.
    rewrite I1, I2, I3, H1, H2, H3, <- app_assoc. repeat split.
Qed.

(** X5. The loop over the images adds to the items of the book, in the
    order of the list, one image for each file that can be read, with its
    name as identifier, and nothing for a file that cannot: a failed read
    does not stop the loop. Chapters and spine are not touched. *)
Theorem add_image_files_registers_readable :
  forall (fs : filesystem) (img_files : list Path) (parent_path : string)
         (st : converter),
    let st' := add_image_files fs img_files parent_path st in
    book_items st'
    = book_items st ++ flat_map (registered_items fs parent_path) img_files
    /\ chapters st' = chapters st
    /\ spine st' = spine st.
Proof. intros. apply add_image_files_items. Qed.

(** ** The batch over a directory *)

Section BatchProperties.

Variable fs : filesystem.
Variable yaml_title : string -> result (option string).
Variable md_convert : list md_event -> string -> result string.
Variable html_parser : string -> result (list node).
Variable soup_str : list node -> string.
Variable auto_id : list item -> string.
Variable mkdir_parents : Path -> result unit.
Variable write_epub : string -> converter -> result unit.
Variable set_order : list Path -> list Path.

Local Abbreviation add_file :=
  (add_markdown_file fs yaml_title md_convert html_parser soup_str auto_id).
Local Abbreviation add_files :=
  (add_markdown_files fs yaml_title md_convert html_parser soup_str auto_id).
Local Abbreviation add_directory :=
  (add_markdown_directory fs yaml_title md_convert html_parser soup_str auto_id
     set_order).
Local Abbreviation emit := (generate_epub mkdir_parents write_epub).
Local Abbreviation reach :=
  (reachable fs yaml_title md_convert html_parser soup_str auto_id
             mkdir_parents write_epub).

Lemma add_files_count files : forall st,
  List.length (chapters (fst (add_files files st)))
  = List.length (chapters st) + snd (add_files files st).
Proof.
  induction files as [| f files IH]; intros st; [simpl; lia |].
  rewrite add_files_cons.
  destruct (add_file f None st) as [st1 [|]] eqn:H; simpl; rewrite IH.
  - destruct (add_markdown_file_true _ _ _ _ _ _ _ _ _ _ H) as (c & -> & _).
    rewrite length_app. simpl. lia.
  - destruct (add_markdown_file_false _ _ _ _ _ _ _ _ _ _ H) as (-> & _). lia.
Qed.

(** X6. [add_markdown_directory] returns [True] exactly when it has added
    at least one chapter, and whatever it returns the chapters that were
    there before are still the first chapters, unchanged. *)
Theorem add_markdown_directory_true_iff_chapter_added :
  forall (directory_path pattern : string) (st st' : converter) (ok : bool),
    add_directory directory_path pattern st = Ok (st', ok) ->
    (ok = true <-> List.length (chapters st) < List.length (chapters st'))
    /\ exists later, chapters st' = chapters st ++ later.
Proof.
  intros directory_path pattern st st' ok. unfold add_markdown_directory.
  assert (Hsame : forall line,
             (false = true <-> List.length (chapters st)
                               < List.length (chapters (print line st)))
             /\ exists later, chapters (print line st) = chapters st ++ later).
  { intros line. simpl. split; [split; [discriminate | lia] |].
    exists []. now rewrite app_nil_r. }
  destruct (negb _).
  { intros H. injection H as <- <-. apply Hsame. }
  destruct (Key.sorted _ _) as [md_files | e]; [simpl | discriminate].
  destruct md_files as [| f files].
  { intros H. injection H as <- <-. apply Hsame. }
  set (st0 := print _ st).
  pose proof (add_files_count (f :: files) st0) as Hcount.
  destruct (add_files_extends fs yaml_title md_convert html_parser soup_str
              auto_id (f :: files) st0) as [later Hlater].
  destruct (add_files (f :: files) st0) as [st1 n]. simpl in Hcount, Hlater.
  intros H. injection H as <- <-.
  match goal with
  | |- context [add_image_files fs ?imgs ?par ?s] =>
      destruct (add_image_files_items fs imgs par s) as (_ & -> & _)
  end.
  simpl. split.
  - rewrite Hcount. destruct n; simpl; split; intros H; try discriminate; try lia.
    reflexivity.
  - now exists later.
Qed.

Lemma set_listing_nil : is_set_listing set_order -> set_order [] = [].
Proof.
  intros Hset. destruct (Hset []) as [_ Hin].
  destruct (set_order []) as [| x l]; [reflexivity |].
  exfalso. apply (Hin x). now left.
Qed.

(** X7. For a pattern of the shape of the default [*.md] (a star, then
    characters that stand for themselves) and a directory written in
    ASCII: when the directory is missing or holds no file for the pattern
    and none for [*.markdown], the batch stops there: it prints one line
    and returns [False], and the images of the directory are not looked
    for, so the items, the chapters and the spine are as before. *)
Theorem add_markdown_directory_without_markdown :
  forall (directory_path pattern : string) (st : converter),
    is_set_listing set_order ->
    star_pattern pattern = true ->
    ascii_only directory_path = true ->
    FS.glob fs (PyPath.parse directory_path) pattern
    ++ FS.glob fs (PyPath.parse directory_path) "*.markdown" = [] ->
    exists line,
      add_directory directory_path pattern st = Ok (print line st, false)
      /\ book_items (print line st) = book_items st
      /\ chapters (print line st) = chapters st
      /\ spine (print line st) = spine st.
Proof.
  intros directory_path pattern st Hset _ _ Hglob. unfold add_markdown_directory.
  rewrite Hglob, (set_listing_nil Hset).
  destruct (negb _); eexists; (split; [reflexivity | repeat split]).
Qed.

(** X8. The Markdown parser is reset only after a chapter was added. When
    the file cannot be read the parser is not called; when it is read the
    text is converted, and the reset follows only if the call returns
    [True]: after a failure later in the call the parser carries what the
    failed file left in it into the next conversion. *)
Theorem add_markdown_file_resets_only_on_success :
  forall (md_path : Path) (chapter_title : option string) (st : converter),
    let r := add_file md_path chapter_title st in
    match FS.read fs md_path with
    | Ok md_content =>
        md (fst r)
        = md st ++ MdConvert md_content :: (if snd r then [MdReset] else [])
    | Raise _ => md (fst r) = md st /\ snd r = false
    end.
Proof.
  intros md_path chapter_title st. cbv zeta.
  unfold add_markdown_file, build_chapter.
  destruct (FS.read fs md_path) as [md_content | e]; [| split; reflexivity].
  destruct (bind (md_convert (md st) md_content) _) as [chapter | e]; simpl.
  - now rewrite <- app_assoc.
  - reflexivity.
Qed.

Lemma generate_epub_items output_path st :
  chapters st <> [] ->
  book_items (fst (emit output_path st)) = book_items st ++ emitted_items
  /\ List.map h_links (chapters (fst (emit output_path st)))
     = List.map (fun c => h_links c ++ ["style/default.css"]) (chapters st).
Proof.
  intros Hs. unfold generate_epub.
  destruct (chapters st) as [| c0 cs] eqn:Hcs; [contradiction |].
  rewrite <- Hcs.
  destruct (bind _ _) as [u | e];
    cbn [fst print set_book_spine set_book_toc book_add_item book_items
         chapters add_custom_css set_chapters];
    rewrite <- !app_assoc, map_map; split; reflexivity.
Qed.

(** X9. [generate_epub] on a book with chapters adds the default style
    sheet, the NCX and the navigation document to the items, in this
    order, and links the style sheet to every chapter, whether or not the
    writer then succeeds; so a second call adds all three once more. *)
Theorem generate_epub_adds_three_items :
  forall (output_path output_path' : string) (st : converter),
    chapters st <> [] ->
    let st1 := fst (emit output_path st) in
    let st2 := fst (emit output_path' st1) in
    book_items st1 = book_items st ++ emitted_items
    /\ List.map h_links (chapters st1)
       = List.map (fun c => h_links c ++ ["style/default.css"]) (chapters st)
    /\ book_items st2 = book_items st ++ emitted_items ++ emitted_items.
Proof.
  intros output_path output_path' st Hne.
  pose proof generate_epub_items as Hone.
  cbv zeta.
  destruct (Hone output_path st Hne) as [H1 H2].
  split; [exact H1 | split; [exact H2 |]].
  assert (Hne1 : chapters (fst (emit output_path st)) <> []).
  { destruct (generate_epub_state mkdir_parents write_epub output_path st Hne)
      as (_ & _ & Hlen & _).
    destruct (chapters st); [contradiction |].
    destruct (chapters (fst (emit output_path st))); [discriminate | discriminate]. }
  destruct (Hone output_path' _ Hne1) as [H3 _].
  rewrite H3, H1, <- app_assoc. reflexivity.
Qed.

(** X10. In every state of a converter the chapters are in the items of
    the book exactly once each, in the order of the chapters, and the
    chapter entries of the spine are these same objects in the same
    order: no chapter is in the spine without being in the manifest. *)
Theorem reachable_manifest_matches_spine :
  forall st : converter,
    reach st ->
    filter is_chapter_item (book_items st)
    = List.map ItemChapter (seq 0 (List.length (chapters st)))
    /\ spine st = SpineNav :: List.map SpineChapter (seq 0 (List.length (chapters st))).
Proof.
  intros st Hr. split; [| exact (reachable_spine _ _ _ _ _ _ _ _ st Hr)].
  induction Hr as [| line st _ IH | p t st _ IH | p q st _ IH | c st _ IH
                   | p st _ IH | p st _ IH].
  - reflexivity.
  - exact IH.
  - destruct (add_file p t st) as [st' [|]] eqn:H; simpl.
    + destruct (add_markdown_file_true _ _ _ _ _ _ _ _ _ _ H)
        as (ch & -> & _ & -> & _).
      rewrite filter_app, IH, length_app, Nat.add_1_r, seq_S, map_app.
      reflexivity.
    + destruct (add_markdown_file_false _ _ _ _ _ _ _ _ _ _ H)
        as (-> & _ & -> & _). exact IH.
  - destruct (add_image_file_items fs p q st) as (-> & -> & _).
    rewrite filter_app, IH. unfold registered_items.
    destruct (FS.read fs p); simpl; now rewrite app_nil_r.
  - destruct (add_custom_css_state c st) as (_ & -> & _).
    unfold add_custom_css.
    cbn [fst print set_chapters book_add_item book_items].
    rewrite filter_app, IH. simpl. now rewrite app_nil_r.
  - destruct (add_cover_image_state fs p st) as (_ & -> & -> & _). exact IH.
  - destruct (chapters st) as [| c0 cs] eqn:Hcs.
    + unfold generate_epub. rewrite Hcs. cbn [fst print book_items chapters].
      now rewrite Hcs.
    + assert (Hne : chapters st <> []) by congruence.
      destruct (generate_epub_state mkdir_parents write_epub p st Hne)
        as (_ & _ & -> & _).
      destruct (generate_epub_items p st Hne) as [-> _].
      rewrite filter_app, IH, Hcs. simpl. now rewrite app_nil_r.
Qed.

End BatchProperties.

Lemma sample_batch_run :
  add_markdown_directory sample_fs sample_yaml sample_convert sample_parser
    sample_soup_str sample_auto_id first_occurrence_order "book" "*.md"
    sample_init = Ok (sample_batch_state, true).
Proof. vm_compute. reflexivity. Defined.

Lemma add_markdown_directory_true_iff_chapter_added_witness :
  add_markdown_directory sample_fs sample_yaml sample_convert sample_parser
    sample_soup_str sample_auto_id first_occurrence_order "book" "*.md"
    sample_init = Ok (sample_batch_state, true)
  /\ (true = true
      <-> List.length (chapters sample_init)
          < List.length (chapters sample_batch_state))
  /\ exists later, chapters sample_batch_state = chapters sample_init ++ later.
Proof.
  split; [exact sample_batch_run |].
  exact (add_markdown_directory_true_iff_chapter_added sample_fs sample_yaml
           sample_convert sample_parser sample_soup_str sample_auto_id
           first_occurrence_order "book" "*.md" sample_init sample_batch_state
           true sample_batch_run).
Defined.

Lemma add_markdown_directory_without_markdown_witness :
  is_set_listing first_occurrence_order
  /\ star_pattern "*.md" = true
  /\ ascii_only "book/sub" = true
  /\ FS.glob sample_fs (PyPath.parse "book/sub") "*.md"
     ++ FS.glob sample_fs (PyPath.parse "book/sub") "*.markdown" = []
  /\ exists line,
       add_markdown_directory sample_fs sample_yaml sample_convert sample_parser
         sample_soup_str sample_auto_id first_occurrence_order "book/sub" "*.md"
         sample_init = Ok (print line sample_init, false)
       /\ book_items (print line sample_init) = book_items sample_init
       /\ chapters (print line sample_init) = chapters sample_init
       /\ spine (print line sample_init) = spine sample_init.
Proof.
  split; [exact first_occurrence_order_listing |]. split; [reflexivity |].
  split; [reflexivity |]. split; [reflexivity |].
  exact (add_markdown_directory_without_markdown sample_fs sample_yaml
           sample_convert sample_parser sample_soup_str sample_auto_id
           first_occurrence_order "book/sub" "*.md" sample_init
           first_occurrence_order_listing eq_refl eq_refl eq_refl).
Defined.

Lemma sample_one_chapter_nonempty : chapters sample_one_chapter <> [].
Proof. vm_compute. discriminate. Defined.

Lemma generate_epub_adds_three_items_witness :
  chapters sample_one_chapter <> []
  /\ let st1 := fst (generate_epub sample_mkdir sample_write "out/a.epub"
                       sample_one_chapter) in
     let st2 := fst (generate_epub sample_mkdir sample_write "out/b.epub" st1) in
     book_items st1 = book_items sample_one_chapter ++ emitted_items
     /\ List.map h_links (chapters st1)
        = List.map (fun c => h_links c ++ ["style/default.css"])
                   (chapters sample_one_chapter)
     /\ book_items st2
        = book_items sample_one_chapter ++ emitted_items ++ emitted_items.
Proof.
  split; [exact sample_one_chapter_nonempty |].
  exact (generate_epub_adds_three_items sample_mkdir sample_write
           "out/a.epub" "out/b.epub" sample_one_chapter
           sample_one_chapter_nonempty).
Defined.

Lemma sample_one_chapter_reachable :
  reachable sample_fs sample_yaml sample_convert sample_parser sample_soup_str
            sample_auto_id sample_mkdir sample_write sample_one_chapter.
Proof. apply reach_add_markdown_file, reach_init. Defined.

Lemma reachable_manifest_matches_spine_witness :
  reachable sample_fs sample_yaml sample_convert sample_parser sample_soup_str
            sample_auto_id sample_mkdir sample_write sample_one_chapter
  /\ filter is_chapter_item (book_items sample_one_chapter)
     = List.map ItemChapter (seq 0 (List.length (chapters sample_one_chapter)))
  /\ spine sample_one_chapter
     = SpineNav
       :: List.map SpineChapter (seq 0 (List.length (chapters sample_one_chapter))).
Proof.
  split; [exact sample_one_chapter_reachable |].
  exact (reachable_manifest_matches_spine sample_fs sample_yaml sample_convert
           sample_parser sample_soup_str sample_auto_id sample_mkdir
           sample_write sample_one_chapter sample_one_chapter_reachable).
Defined.

(** ** Titles *)

Lemma is_empty_eq s : PyStr.is_empty s = true -> s = "".
Proof. destruct s; [reflexivity | discriminate]. Qed.

Lemma rstrip_empty s : PyStr.is_empty (PyStr.rstrip s) = blank s.
Proof.
  unfold blank. induction s as [| c s IH]; [reflexivity |].
  simpl. rewrite IH.
  destruct (PyStr.forallb PyStr.is_space s), (PyStr.is_space c); reflexivity.
Qed.

Lemma lstrip_blank s : blank (PyStr.lstrip s) = blank s.
Proof.
  unfold blank. induction s as [| c s IH]; [reflexivity |].
  simpl. destruct (PyStr.is_space c) eqn:Hc; simpl; [exact IH | now rewrite Hc].
Qed.

(** Stripping leaves nothing exactly of the strings of white space. *)
Lemma strip_empty s : PyStr.is_empty (PyStr.strip s) = blank s.
Proof. unfold PyStr.strip. now rewrite rstrip_empty, lstrip_blank. Qed.

Lemma rstrip_idem s : PyStr.rstrip (PyStr.rstrip s) = PyStr.rstrip s.
Proof.
  induction s as [| c s IH]; [reflexivity |].
  cbn [PyStr.rstrip].
  destruct (PyStr.is_empty (PyStr.rstrip s) && PyStr.is_space c) eqn:Hc;
    [reflexivity |].
  cbn [PyStr.rstrip]. now rewrite IH, Hc.
Qed.

(** What follows [# ] at the start of a stripped line is not blank. *)
Lemma heading_text_not_blank raw r :
  PyStr.strip raw = String "#" (String " " r) -> blank r = false.
Proof.
  intros H. destruct (blank r) eqn:Hb; [| reflexivity]. exfalso.
  assert (Hfix : PyStr.rstrip (PyStr.strip raw) = PyStr.strip raw)
    by apply rstrip_idem.
  rewrite H in Hfix. cbn [PyStr.rstrip] in Hfix.
  rewrite <- rstrip_empty in Hb. rewrite Hb in Hfix. simpl in Hfix.
  discriminate.
Qed.

Lemma startswith_heading line :
  PyStr.startswith "# " line = true ->
  exists r, line = String "#" (String " " r).
Proof.
  unfold PyStr.startswith.
  destruct line as [| c [| d r]]; cbn [prefix]; intros H.
  - discriminate H.
  - destruct (ascii_dec "#" c); discriminate H.
  - destruct (ascii_dec "#" c) as [<- |]; [| discriminate H].
    destruct (ascii_dec " " d) as [<- |]; [| discriminate H].
    now exists r.
Qed.

Lemma scan_headings_nonempty lines rest t :
  Title.scan_headings lines rest = Ok (Some t) -> t <> "".
Proof.
  induction rest as [| raw rest IH]; [discriminate |].
  cbn [Title.scan_headings].
  destruct (PyStr.startswith "# " (PyStr.strip raw)) eqn:Hh.
  - intros H. injection H as <-.
    destruct (startswith_heading _ Hh) as [r Hr]. rewrite Hr. simpl.
    pose proof (heading_text_not_blank raw r Hr) as Hb.
    rewrite <- strip_empty in Hb. intros He. now rewrite He in Hb.
  - destruct (PyStr.is_empty (PyStr.strip raw)) eqn:He; [exact IH |].
    destruct (list_index _ _) as [i | e]; [simpl | discriminate].
    destruct (i + 1 <? List.length lines)%nat; [| exact IH].
    destruct (negb _ && _); [| exact IH].
    intros H. injection H as <-. intros Hc. now rewrite Hc in He.
Qed.

Lemma extract_title_by_scan yaml_title md_content md_path :
  _extract_title yaml_title md_content md_path
  = (h <- Title.scan_headings (PyStr.split_on "010" md_content)
                              (PyStr.split_on "010" md_content) ;;
     match h with
     | Some t => Ok t
     | None => Ok (Title.from_filename md_path)
     end).
Proof.
  unfold _extract_title.
  destruct (String.eqb _ "---"); [| reflexivity].
  destruct (Title.find_yaml_end 1 _) as [yaml_end |]; [| reflexivity].
  reflexivity.
Qed.

Lemma from_filename_nonempty md_path :
  PyPath.stem md_path <> "" -> Title.from_filename md_path <> "".
Proof.
  unfold Title.from_filename. destruct (PyPath.stem md_path) as [| c s];
    [contradiction |].
  intros _. unfold PyStr.title, PyStr.replace. cbn [PyStr.map PyStr.title_from].
  destruct (_ || _); discriminate.
Qed.

(** X12. The title [_extract_title] returns is never the empty string
    when the file has a name to fall back on: a [# ] heading always has
    text after the marker, a setext heading is a line that is not blank,
    and the title made from a non-empty stem is not empty. *)
Theorem extract_title_not_empty :
  forall (yaml_title : string -> result (option string))
         (md_content : string) (md_path : Path) (t : string),
    PyPath.stem md_path <> "" ->
    _extract_title yaml_title md_content md_path = Ok t ->
    t <> "".
Proof.
  intros yaml_title md_content md_path t Hstem.
  rewrite extract_title_by_scan.
  destruct (Title.scan_headings _ _) as [[h |] | e] eqn:Hs; simpl;
    intros H; try discriminate; injection H as <-.
  - exact (scan_headings_nonempty _ _ _ Hs).
  - now apply from_filename_nonempty.
Qed.

Lemma extract_title_not_empty_witness :
  PyPath.stem (PyPath.parse "book/ch2.md") <> ""
  /\ _extract_title sample_yaml ("#    Two   " ++ nl ++ "text")
       (PyPath.parse "book/ch2.md") = Ok "Two"
  /\ "Two" <> "".
Proof.
  assert (H1 : PyPath.stem (PyPath.parse "book/ch2.md") <> "")
    by (vm_compute; discriminate).
  split; [exact H1 |]. split; [reflexivity |].
  exact (extract_title_not_empty sample_yaml ("#    Two   " ++ nl ++ "text")
           (PyPath.parse "book/ch2.md") "Two" H1 eq_refl).
Defined.

Lemma split_on_blank sep s :
  blank s = true -> Forall (fun w => blank w = true) (PyStr.split_on sep s).
Proof.
  unfold blank. induction s as [| c s IH]; intros H; [now repeat constructor |].
  simpl in H. apply andb_true_iff in H. destruct H as [Hc Hs].
  specialize (IH Hs). simpl.
  destruct (Ascii.eqb c sep); [now constructor |].
  destruct (PyStr.split_on sep s) as [| w ws].
  - constructor; [| constructor]. simpl. now rewrite Hc.
  - apply Forall_cons_iff in IH. destruct IH as [Hw Hws].
    constructor; [| exact Hws]. simpl. now rewrite Hc, Hw.
Qed.

Lemma strip_blank s : blank s = true -> PyStr.strip s = "".
Proof. intros H. apply is_empty_eq. now rewrite strip_empty. Qed.

Lemma scan_headings_blank lines rest :
  Forall (fun w => blank w = true) rest ->
  Title.scan_headings lines rest = Ok None.
Proof.
  induction 1 as [| raw rest Hraw _ IH]; [reflexivity |].
  cbn [Title.scan_headings]. rewrite (strip_blank raw Hraw). exact IH.
Qed.

(** X13. A document that is empty or holds white space only has no title
    of its own: [_extract_title] returns the title made from the file
    name, without raising. *)
Theorem extract_title_of_blank_document :
  forall (yaml_title : string -> result (option string))
         (md_content : string) (md_path : Path),
    blank md_content = true ->
    _extract_title yaml_title md_content md_path
    = Ok (Title.from_filename md_path).
Proof.
  intros yaml_title md_content md_path Hb.
  rewrite extract_title_by_scan.
  now rewrite (scan_headings_blank _ _ (split_on_blank "010" md_content Hb)).
Qed.

Lemma extract_title_of_blank_document_witness :
  blank (" " ++ nl ++ nl ++ "  ") = true
  /\ _extract_title sample_yaml (" " ++ nl ++ nl ++ "  ")
       (PyPath.parse "book/my_first-chapter.md")
     = Ok (Title.from_filename (PyPath.parse "book/my_first-chapter.md")).
Proof.
  split; [reflexivity |].
  exact (extract_title_of_blank_document sample_yaml (" " ++ nl ++ nl ++ "  ")
           (PyPath.parse "book/my_first-chapter.md") eq_refl).
Defined.

(** ** Normalised paths *)

Lemma split_concat ps :
  ps <> [] -> Forall (fun w => no_sep "/" w = true) ps ->
  PyStr.split_on "/" (String.concat "/" ps) = ps.
Proof.
  induction ps as [| x ps IH]; intros Hne Hf; [contradiction |].
  apply Forall_cons_iff in Hf. destruct Hf as [Hx Hps].
  destruct ps as [| y ps]; [simpl; now apply split_on_whole |].
  change (String.concat "/" (x :: y :: ps))
    with (x ++ String "/" (String.concat "/" (y :: ps)))%string.
  rewrite split_on_app, (split_on_whole "/" x Hx), IH by (assumption || discriminate).
  reflexivity.
Qed.

Lemma filter_all {B : Type} (p : B -> bool) l :
  Forall (fun x => p x = true) l -> filter p l = l.
Proof.
  induction 1 as [| x l Hx _ IH]; [reflexivity |]. simpl. now rewrite Hx, IH.
Qed.

Lemma parse_parts_good s :
  Forall (fun w => PyPath.keep_part w = true) (parts (PyPath.parse s))
  /\ Forall (fun w => no_sep "/" w = true) (parts (PyPath.parse s)).
Proof.
  unfold PyPath.parse. destruct (PyPath.splitroot s) as [root rel]. simpl.
  pose proof (split_on_no_sep "/" rel) as Hall. rewrite Forall_forall in Hall.
  split; apply Forall_forall; intros w Hw; apply filter_In in Hw;
    destruct Hw as [Hin Hk]; [exact Hk | now apply Hall].
Qed.

Lemma parse_anchor s :
  anchor (PyPath.parse s) = "" \/ anchor (PyPath.parse s) = "/"
  \/ anchor (PyPath.parse s) = "//".
Proof.
  unfold PyPath.parse, PyPath.splitroot.
  destruct (PyPath.count_slashes s) as [| [| [| k]]]; simpl; tauto.
Qed.

(** A body that starts with a name has no slash in front. *)
Lemma body_no_leading_slash x ps :
  PyPath.keep_part x = true -> no_sep "/" x = true ->
  PyPath.count_slashes (String.concat "/" (x :: ps)) = 0
  /\ PyPath.strip_slashes (String.concat "/" (x :: ps))
     = String.concat "/" (x :: ps)
  /\ PyStr.is_empty (String.concat "/" (x :: ps)) = false.
Proof.
  intros Hk Hs. destruct x as [| c x]; [discriminate |].
  unfold no_sep in Hs. simpl in Hs. apply andb_true_iff in Hs. destruct Hs as [Hc _].
  assert (Hform : exists rest, String.concat "/" (String c x :: ps) = String c rest).
  { destruct ps; simpl; eexists; reflexivity. }
  destruct Hform as [rest ->].
  destruct c as [[] [] [] [] [] [] [] []]; try discriminate; repeat split.
Qed.

Lemma parse_str_good a ps :
  a = "" \/ a = "/" \/ a = "//" ->
  Forall (fun w => PyPath.keep_part w = true) ps ->
  Forall (fun w => no_sep "/" w = true) ps ->
  PyPath.parse (PyPath.str (mkPath a ps)) = mkPath a ps.
Proof.
  intros Ha Hk Hs. unfold PyPath.str, PyStr.join. cbn [anchor parts].
  destruct ps as [| x ps].
  - destruct Ha as [-> | [-> | ->]]; reflexivity.
  - pose proof Hk as Hk'. apply Forall_cons_iff in Hk'. destruct Hk' as [Hkx _].
    pose proof Hs as Hs'. apply Forall_cons_iff in Hs'. destruct Hs' as [Hsx _].
    destruct (body_no_leading_slash x ps Hkx Hsx) as (Hc & Hst & He).
    assert (Hsplit : filter PyPath.keep_part
                       (PyStr.split_on "/" (String.concat "/" (x :: ps)))
                     = x :: ps).
    { rewrite split_concat by (assumption || discriminate). now apply filter_all. }
    unfold PyPath.parse, PyPath.splitroot.
    destruct Ha as [-> | [-> | ->]]; cbn [PyStr.is_empty append].
    + rewrite He, Hc. now rewrite Hsplit.
    + cbn [PyPath.count_slashes PyPath.strip_slashes]. rewrite Hc, Hst.
      now rewrite Hsplit.
    + cbn [PyPath.count_slashes PyPath.strip_slashes]. rewrite Hc, Hst.
      now rewrite Hsplit.
Qed.

(** X14. Normalising a path is idempotent: the text of a parsed path
    parses to the same path again. So the directory that
    [add_markdown_directory] builds from the string [main] hands it is
    the path [main] normalised, and that string is its own normal
    form. *)
Theorem path_normalisation_idempotent :
  forall s : string,
    PyPath.parse (PyPath.str (PyPath.parse s)) = PyPath.parse s
    /\ meta_markdown_dir (main_meta (meta_markdown_dir (main_meta s)))
       = meta_markdown_dir (main_meta s).
Proof.
  intros s.
  assert (H : PyPath.parse (PyPath.str (PyPath.parse s)) = PyPath.parse s).
  { destruct (parse_parts_good s) as [Hk Hs].
    pose proof (parse_anchor s) as Ha.
    destruct (PyPath.parse s) as [a ps]. now apply parse_str_good. }
  split; [exact H |]. unfold main_meta. cbn [meta_markdown_dir]. now rewrite H.
Qed.

(** ** Headings removed *)

Lemma count_h1_events l :
  Soup.count_h1 l = List.length (filter Soup.is_h1_start (Soup.events_of l)).
Proof. reflexivity. Qed.

(** X15. Removing the first heading lowers the number of [h1] elements of
    the document by the number of [h1] elements in that heading, itself
    included: never by less than one when there is a heading, and by
    nothing when there is none. *)
Theorem remove_first_h1_count :
  forall soup : list node,
    match Soup.find_h1 soup with
    | Some p =>
        exists first_h1,
          Soup.get p soup = Some first_h1
          /\ 1 <= Soup.count_h1 [first_h1]
          /\ Soup.count_h1 (Soup.remove_first_h1 soup) + Soup.count_h1 [first_h1]
             = Soup.count_h1 soup
    | None => Soup.count_h1 (Soup.remove_first_h1 soup) = Soup.count_h1 soup
    end.
Proof.
  intros soup. unfold Soup.remove_first_h1.
  destruct (Soup.find_h1 soup) as [p |] eqn:Hf; [| reflexivity].
  destruct (find_h1_cut soup p Hf) as (e & before & after & Hg & He & Hev & Hb & Hd).
  exists e. split; [exact Hg |].
  rewrite !count_h1_events, Hev, Hd.
  assert (Hone : Soup.events_of [e] = Soup.events e)
    by (unfold Soup.events_of; simpl; apply app_nil_r).
  rewrite Hone, !filter_app, !length_app, Hb. simpl.
  split; [| lia].
  destruct e as [nm at_ ch | s]; [| discriminate].
  simpl in He |- *. rewrite He. simpl. lia.
Qed.

(** ** The title from the file name *)

Lemma replace_length a b s :
  String.length (PyStr.replace a b s) = String.length s.
Proof.
  unfold PyStr.replace. induction s as [| c s IH]; simpl; [reflexivity | now rewrite IH].
Qed.

Lemma title_from_length p s :
  String.length (PyStr.title_from p s) = String.length s.
Proof.
  revert p. induction s as [| c s IH]; intros p; simpl; [reflexivity |].
  destruct (_ || _); simpl; now rewrite IH.
Qed.

Lemma title_from_keeps q : forall p s,
  (forall c, q c = false -> PyStr.is_upper c || PyStr.is_lower c = false) ->
  (forall c, q c = true -> q (PyStr.to_lower c) = true /\ q (PyStr.to_upper c) = true) ->
  PyStr.forallb q s = true -> PyStr.forallb q (PyStr.title_from p s) = true.
Proof.
  intros p s Hcased Hcase. revert p.
  induction s as [| c s IH]; intros p H; [reflexivity |].
  simpl in H. apply andb_true_iff in H. destruct H as [Hc Hs].
  destruct (Hcase c Hc) as [Hl Hu].
  simpl. destruct (_ || _); simpl; rewrite (IH _ Hs), ?andb_true_r;
    [now destruct p | exact Hc].
Qed.

(** X17. The title made from a file name in ASCII has as many characters
    as the stem of the name and holds neither an underscore nor a hyphen:
    each of them has become a space. *)
Theorem from_filename_has_no_separators :
  forall md_path : Path,
    let t := Title.from_filename md_path in
    ascii_only (PyPath.stem md_path) = true ->
    String.length t = String.length (PyPath.stem md_path)
    /\ PyStr.forallb (fun c => negb (Ascii.eqb c "_") && negb (Ascii.eqb c "-")) t
       = true.
Proof.
  intros md_path t _. unfold t, Title.from_filename, PyStr.title. split.
  - now rewrite title_from_length, !replace_length.
  - apply title_from_keeps.
    + intros c Hc. destruct c as [[] [] [] [] [] [] [] []]; try reflexivity;
        simpl in Hc; discriminate.
    + intros c Hc. destruct c as [[] [] [] [] [] [] [] []]; try (split; reflexivity);
        simpl in Hc; discriminate.
    + unfold PyStr.replace.
      induction (PyPath.stem md_path) as [| c s IH]; [reflexivity |].
      cbn [PyStr.map PyStr.forallb]. rewrite IH, andb_true_r.
      destruct c as [[] [] [] [] [] [] [] []]; reflexivity.
Qed.

Lemma from_filename_has_no_separators_witness :
  let md_path := PyPath.parse "book/my_first-chapter.md" in
  let t := Title.from_filename md_path in
  ascii_only (PyPath.stem md_path) = true
  /\ t = "My First Chapter"
  /\ String.length t = String.length (PyPath.stem md_path)
  /\ PyStr.forallb (fun c => negb (Ascii.eqb c "_") && negb (Ascii.eqb c "-")) t
     = true.
Proof.
  cbv zeta. split; [reflexivity |]. split; [reflexivity |].
  exact (from_filename_has_no_separators
           (PyPath.parse "book/my_first-chapter.md") eq_refl).
Defined.
